(** * fastfood.py: the aggregation and classification pipeline

    A shallow embedding of [src/fastfood.py] and the properties of it that
    the specification states.

    Modelling choices, all visible in the definitions below:
    - a Python [str] is a [string] of 8-bit characters; [str.lower] maps
      [A]..[Z] to [a]..[z] and leaves every other character alone, which is
      what it does on ASCII text;
    - a cell of a pandas frame is a [value]: a string, a number or NaN.
      Numbers are rationals ([Q]); floating-point rounding is not modelled;
    - a row is a finite map from column labels to cells, a frame is its
      column labels and its rows;
    - a raised exception is a value of [exn], a computation that may raise
      is of type [M A], and what a function of the module hands back to its
      caller is an [outcome] together with the log records it emitted;
    - pandas, numpy, sqlite3 and matplotlib are not part of the repository.
      Their calls are modelled by what they are documented to do
      ([groupby], [mean], [min], [max], [head]), as parameters where the
      source leaves the behaviour to the library (the algorithm behind
      [sort_values], the file system, the data base, the plot window). *)

From Stdlib Require Import String Ascii List Bool Lia QArith Qminmax Sorted Permutation.
From stdpp Require Import gmap strings sorting.
Import ListNotations.
Local Open Scope string_scope.

(** ** Exceptions, logging and outcomes *)

(** The exceptions the module's code can meet. All of them derive from
    Python's [Exception]. *)
Inductive exn : Type :=
| AttributeError (msg : string)
| KeyError (key : string)
| TypeError (msg : string)
| ValueError (msg : string)
| OSError (msg : string).

(** [str(e)] *)
Definition str (e : exn) : string :=
  match e with
  | AttributeError msg => msg
  | KeyError key => "'" ++ key ++ "'"
  | TypeError msg => msg
  | ValueError msg => msg
  | OSError msg => msg
  end.

(** A computation that returns a value or raises. *)
Definition M (A : Type) : Type := exn + A.

Definition ret {A} (a : A) : M A := inr a.
Definition raise {A} (e : exn) : M A := inl e.
Definition bind {A B} (m : M A) (k : A -> M B) : M B :=
  match m with
  | inl e => inl e
  | inr a => k a
  end.

Notation "'let*' x ':=' m 'in' k" := (bind m (fun x => k))
  (at level 10, x name, m at level 100, k at level 200).

(** [mapM f l]: call [f] on the elements of [l] from left to right and stop
    at the first call that raises. *)
Fixpoint mapM {A B} (f : A -> M B) (l : list A) : M (list B) :=
  match l with
  | [] => ret []
  | a :: l' => let* b := f a in let* bs := mapM f l' in ret (b :: bs)
  end.

Inductive level : Type := INFO | ERROR.

(** One record of the [logging] module: its level and its message. *)
Definition log_record : Type := level * string.

(** What the caller of a function observes: the function returns a value,
    or an exception leaves it. *)
Inductive outcome (A : Type) : Type :=
| Returns (v : A)
| Propagates (e : exn).
Arguments Returns {A} v.
Arguments Propagates {A} e.

(** The shape every function of the module has:
<<
    try:
        v = body
        logging.info(done)
        return v
    except Exception as e:
        logging.error(failed.format(str(e)))
>>
    A function that reaches its end without [return] returns [None]. The
    clause [except Exception] handles the exceptions that are instances of
    [Exception]; any other would leave the function. *)
Definition is_Exception (e : exn) : bool :=
  match e with
  | AttributeError _ | KeyError _ | TypeError _ | ValueError _ | OSError _ => true
  end.

Definition try_except {A} (body : M A) (done failed : string)
  : outcome (option A) * list log_record :=
  match body with
  | inr v => (Returns (Some v), [(INFO, done)])
  | inl e =>
      if is_Exception e
      then (Returns None, [(ERROR, failed ++ str e)])
      else (Propagates e, [])
  end.

(** ** Python strings *)

Definition is_upper (c : ascii) : bool :=
  (65 <=? nat_of_ascii c)%nat && (nat_of_ascii c <=? 90)%nat.

Definition lower_char (c : ascii) : ascii :=
  if is_upper c then ascii_of_nat (nat_of_ascii c + 32) else c.

(** [s.lower()] *)
Fixpoint lower (s : string) : string :=
  match s with
  | EmptyString => EmptyString
  | String c s' => String (lower_char c) (lower s')
  end.

(** [sub in s] on strings: [sub] occurs in [s] as a contiguous run. *)
Fixpoint contains (sub s : string) : bool :=
  String.prefix sub s ||
  match s with
  | EmptyString => false
  | String _ s' => contains sub s'
  end.

(** [sep.join(l)] *)
Definition join (sep : string) (l : list string) : string := String.concat sep l.

(** ** Cells, rows and frames *)

Inductive value : Type :=
| Str (s : string)
| Num (q : Q)
| NaN.

(** A row handed to a function by [DataFrame.apply(f, axis=1)]. *)
Abbreviation row := (gmap string value).

Record DataFrame : Type := mkDataFrame {
  columns : list string;
  rows : list row
}.

(** [row[col]] *)
Definition getitem (r : row) (col : string) : M value :=
  match r !! col with
  | Some v => ret v
  | None => raise (KeyError col)
  end.

(** [v.lower()] for a cell [v]: only a string has the method. *)
Definition lower_of (v : value) : M string :=
  match v with
  | Str s => ret (lower s)
  | Num _ | NaN => raise (AttributeError "'float' object has no attribute 'lower'")
  end.

(** [v == s] for a cell [v] and a string literal [s]. *)
Definition eq_str (v : value) (s : string) : bool :=
  match v with
  | Str s' => String.eqb s' s
  | Num _ | NaN => false
  end.

(** [data.attr] for the argument of a function of the module: the callers
    pass on what the previous stage returned, which is [None] when that
    stage failed. *)
Definition getattr (data : option DataFrame) (attr : string) : M DataFrame :=
  match data with
  | Some d => ret d
  | None => raise (AttributeError ("'NoneType' object has no attribute '" ++ attr ++ "'"))
  end.

(** What [DataFrame.apply(f, axis=1)] returns: a series with one cell per
    row, or a frame. *)
Inductive applied : Type :=
| Series (cells : list value)
| Frame (d : DataFrame).

(** The row pandas tries [f] on when the frame has no row to call it on:
    every column holds NaN. *)
Definition nan_row (cols : list string) : row :=
  list_to_map (map (fun c => (c, NaN)) cols).

(** [data.apply(f, axis=1)] for an [f] that returns a cell. On a frame with
    rows and columns [f] is called on every row in order, an exception of
    [f] leaves [apply], and the results make a series. When one axis is
    empty pandas has nothing to call [f] on (its [apply_empty_result]): it
    tries [f] on [nan_row] to learn what [f] returns; when the trial gives
    a cell the result is a series that repeats it for every row, and when
    the trial raises the exception is dropped and the result is a copy of
    the frame itself. *)
Definition apply (f : row -> M value) (data : DataFrame) : M applied :=
  match rows data, columns data with
  | _ :: _, _ :: _ =>
      let* cells := mapM f (rows data) in
      ret (Series cells)
  | _, _ =>
      match f (nan_row (columns data)) with
      | inr v => ret (Series (map (fun _ => v) (rows data)))
      | inl _ => ret (Frame data)
      end
  end.

(** The columns of [data] after an assignment to column [col]: a new
    label goes last. *)
Definition with_column (col : string) (cols : list string) : list string :=
  if bool_decide (col ∈ cols) then cols else (cols ++ [col])%list.

(** [data[col] = v]. A series gives each row its cell. A frame can be
    assigned to one label only when it has exactly one column, whose cells
    it then gives. *)
Definition setitem (data : DataFrame) (col : string) (v : applied) : M DataFrame :=
  match v with
  | Series cells =>
      ret {| columns := with_column col (columns data);
             rows := zip_with (fun r c => <[col := c]> r) (rows data) cells |}
  | Frame d =>
      match columns d with
      | [c] =>
          ret {| columns := with_column col (columns data);
                 rows := zip_with (fun r r' => <[col := default NaN (r' !! c)]> r)
                                  (rows data) (rows d) |}
      | cols =>
          raise (ValueError
                   (if bool_decide (col ∈ columns data)
                    then "Columns must be same length as key"
                    else match cols with
                         | [] => "Cannot set a DataFrame without columns to the column " ++ col
                         | _ => "Cannot set a DataFrame with multiple columns to the single column " ++ col
                         end))
      end
  end.

(** ** The classifier *)

Definition main_keywords : list string := ["burger"; "sandwich"; "pizza"].
Definition side_keywords : list string := ["fries"; "salad"].
Definition dessert_keywords : list string := ["ice cream"; "cake"].

(** [any(keyword in item.lower() for keyword in keywords)]: the generator
    is consumed up to the first keyword found. *)
Fixpoint any_keyword_in (keywords : list string) (item : value) : M bool :=
  match keywords with
  | [] => ret false
  | keyword :: rest =>
      let* s := lower_of item in
      if contains keyword s then ret true else any_keyword_in rest item
  end.

Definition categorize_item (r : row) : M value :=
  let* item := getitem r "item" in
  let* is_main := any_keyword_in main_keywords item in
  if is_main then ret (Str "Main") else
  let* is_side := any_keyword_in side_keywords item in
  if is_side then ret (Str "Side") else
  let* is_dessert := any_keyword_in dessert_keywords item in
  if is_dessert then ret (Str "Dessert") else
  ret (Str "Other").

Definition categorize_food_items (data : option DataFrame)
  : outcome (option DataFrame) * list log_record :=
  try_except
    (let* data := getattr data "apply" in
     let* category := apply categorize_item data in
     setitem data "category" category)
    "Food items categorized successfully."
    "Error categorizing food items: ".

(** [if keyword in item.lower(): subcategories.append(label)] *)
Definition append_if_in (keyword label : string) (item : value)
    (subcategories : list string) : M (list string) :=
  let* s := lower_of item in
  ret (if contains keyword s then (subcategories ++ [label])%list else subcategories).

(** [all(subcategory not in item.lower() for subcategory in subcategories)]:
    the generator is consumed up to the first label found. *)
Fixpoint all_not_in (subcategories : list string) (item : value) : M bool :=
  match subcategories with
  | [] => ret true
  | subcategory :: rest =>
      let* s := lower_of item in
      if negb (contains subcategory s) then all_not_in rest item else ret false
  end.

Definition get_subcategory (r : row) : M value :=
  let* category := getitem r "category" in
  let* item := getitem r "item" in
  let subcategories := [] in
  let* subcategories :=
    if eq_str category "Main" then
      let* subcategories := append_if_in "chicken" "Chicken" item subcategories in
      let* subcategories := append_if_in "beef" "Beef" item subcategories in
      let* subcategories := append_if_in "seafood" "Seafood" item subcategories in
      let* subcategories := append_if_in "pork" "Pork" item subcategories in
      let* none_found := all_not_in subcategories item in
      ret (if none_found then (subcategories ++ ["Other"])%list else subcategories)
    else ret subcategories in
  ret (Str (join "," subcategories)).

Definition add_subcategory (data : option DataFrame)
  : outcome (option DataFrame) * list log_record :=
  try_except
    (let* data := getattr data "apply" in
     let* sub_category := apply get_subcategory data in
     setitem data "sub_category" sub_category)
    "Subcategories added for main food items."
    "Error adding subcategories: ".

(** ** The aggregator *)

(** [data[col]]: the cells of a column, top to bottom. *)
Definition column (data : DataFrame) (col : string) : M (list value) :=
  if bool_decide (col ∈ columns data)
  then ret (map (fun r : row => default NaN (r !! col)) (rows data))
  else raise (KeyError col).

(** The order [groupby] puts its group keys in (its default [sort=True]):
    numbers ascending, strings ascending by code point, and in a column
    that mixes them the numbers first. *)
Definition key_compare (a b : value) : comparison :=
  match a, b with
  | Num p, Num q => (p ?= q)%Q
  | Num _, (Str _ | NaN) => Lt
  | Str _, Num _ => Gt
  | Str s, Str t => String.compare s t
  | Str _, NaN => Lt
  | NaN, NaN => Eq
  | NaN, (Num _ | Str _) => Gt
  end.

(** Put cell [v] into the group of key [k], the groups being kept in key
    order. *)
Fixpoint add_to_group (k v : value) (groups : list (value * list value))
  : list (value * list value) :=
  match groups with
  | [] => [(k, [v])]
  | (k', vs) :: rest =>
      match key_compare k k' with
      | Lt => (k, [v]) :: groups
      | Eq => (k', (vs ++ [v])%list) :: rest
      | Gt => (k', vs) :: add_to_group k v rest
      end
  end.

Definition add_row (groups : list (value * list value)) (kv : value * value)
  : list (value * list value) :=
  match kv.1 with
  | NaN => groups
  | _ => add_to_group kv.1 kv.2 groups
  end.

(** [data.groupby(key)[col]] given the two columns: one group per key, in
    key order, each with its cells in row order. A row whose key is NaN
    belongs to no group (the default [dropna=True]). *)
Definition groupby (keys vals : list value) : list (value * list value) :=
  fold_left add_row (zip keys vals) [].

(** The numbers an aggregation works on: NaN cells are skipped (the
    default [skipna=True]), a string cannot be aggregated. *)
Fixpoint numeric (cells : list value) : M (list Q) :=
  match cells with
  | [] => ret []
  | Num q :: rest => let* qs := numeric rest in ret (q :: qs)
  | NaN :: rest => numeric rest
  | Str s :: _ => raise (TypeError ("Could not convert string '" ++ s ++ "' to numeric"))
  end.

Definition Qsum (qs : list Q) : Q := fold_right Qplus 0%Q qs.

(** The aggregations of a group; [None] stands for NaN, the result on a
    group without numbers. [agg_min] and [agg_max] return one of the
    numbers of the group. [agg_mean] is the exact quotient; the code
    computes it in 64-bit floating point, so what it returns is that
    quotient up to rounding. *)
Definition agg_mean (qs : list Q) : option Q :=
  match qs with
  | [] => None
  | _ => Some (Qred (Qsum qs / inject_Z (Z.of_nat (length qs))))
  end.

Definition agg_min (qs : list Q) : option Q :=
  match qs with
  | [] => None
  | q :: rest => Some (fold_left Qmin rest q)
  end.

Definition agg_max (qs : list Q) : option Q :=
  match qs with
  | [] => None
  | q :: rest => Some (fold_left Qmax rest q)
  end.

Definition cell (o : option Q) : value :=
  match o with
  | Some q => Num q
  | None => NaN
  end.

(** [.agg(['mean', 'min', 'max'])]: the aggregations are computed one
    after the other, each over all groups. *)
Definition agg (groups : list (value * list value))
  : M (list (value * (option Q * option Q * option Q))) :=
  let* means := mapM (fun g => let* qs := numeric g.2 in ret (agg_mean qs)) groups in
  let* mins := mapM (fun g => let* qs := numeric g.2 in ret (agg_min qs)) groups in
  let* maxs := mapM (fun g => let* qs := numeric g.2 in ret (agg_max qs)) groups in
  ret (zip (map fst groups) (zip (zip means mins) maxs)).

(** [.reset_index()] on the statistics: a frame with the key column and
    one column per aggregation. *)
Definition stats_frame (stats : list (value * (option Q * option Q * option Q)))
  : DataFrame :=
  {| columns := ["restaurant"; "mean"; "min"; "max"];
     rows := map (fun s : value * (option Q * option Q * option Q) =>
                    <["max" := cell s.2.2]>
                      (<["min" := cell s.2.1.2]>
                         (<["mean" := cell s.2.1.1]>
                            (<["restaurant" := s.1]> (∅ : row)))))
                 stats |}.

Definition calculate_calorie_stats (data : option DataFrame)
  : outcome (option DataFrame) * list log_record :=
  try_except
    (let* data := getattr data "groupby" in
     let* keys := column data "restaurant" in
     let* vals := column data "calories" in
     let* stats := agg (groupby keys vals) in
     ret (stats_frame stats))
    "Calorie statistics calculated successfully."
    "Error calculating calorie statistics: ".

(** [.mean()] on the grouped column. *)
Definition group_means (groups : list (value * list value))
  : M (list (value * option Q)) :=
  mapM (fun g => let* qs := numeric g.2 in ret (g.1, agg_mean qs)) groups.

(** The entries of a series that hold a number, and those that hold NaN. *)
Definition numbers (s : list (value * option Q)) : list (value * Q) :=
  omap (fun e : value * option Q => match e.2 with Some q => Some (e.1, q) | None => None end) s.

Definition nans (s : list (value * option Q)) : list (value * option Q) :=
  filter (fun e : value * option Q => e.2 = None) s.

(** [.reset_index()] on the averages: a frame with the key column and the
    averaged column. *)
Definition carb_frame (s : list (value * option Q)) : DataFrame :=
  {| columns := ["restaurant"; "total_carb"];
     rows := map (fun e : value * option Q =>
                    <["total_carb" := cell e.2]> (<["restaurant" := e.1]> (∅ : row))) s |}.

(** [data.head(n)] *)
Definition head (n : nat) (data : DataFrame) : DataFrame :=
  {| columns := columns data; rows := take n (rows data) |}.

Section Ranking.

(** The sorting algorithm behind [Series.sort_values()]. The source calls
    it without [kind], so it is numpy's default, which pandas documents as
    not stable; what it does to entries with equal values is the
    algorithm's own business. It is a parameter here. *)
Variable quicksort : list (value * Q) -> list (value * Q).

(** [s.sort_values()]: ascending by value, the NaN entries last (the
    default [na_position='last']) in their original order. *)
Definition sort_values (s : list (value * option Q)) : list (value * option Q) :=
  (map (fun e : value * Q => (e.1, Some e.2)) (quicksort (numbers s)) ++ nans s)%list.

Definition rank_restaurants_by_carbs (data : option DataFrame)
  : outcome (option DataFrame) * list log_record :=
  try_except
    (let* data := getattr data "groupby" in
     let* keys := column data "restaurant" in
     let* vals := column data "total_carb" in
     let* means := group_means (groupby keys vals) in
     let carb_stats := carb_frame (sort_values means) in
     let ranked_restaurants := head 5 carb_stats in
     ret ranked_restaurants)
    "Restaurants ranked by carbs on average successfully."
    "Error ranking restaurants by carbs: ".

End Ranking.

(** What a sorting algorithm has to do: reorder its input into ascending
    order of the values. *)
Definition by_value (x y : value * Q) : Prop := (x.2 <= y.2)%Q.

Record Sorts (sorter : list (value * Q) -> list (value * Q)) : Prop := {
  sorts_permutation : forall l, Permutation (sorter l) l;
  sorts_ascending : forall l, StronglySorted by_value (sorter l)
}.


(** Two sorting algorithms to run the ranking with: insertion sort that
    puts an entry after the entries it ties with (stable), and insertion
    sort that puts it before them. *)
Fixpoint insert_after (e : value * Q) (l : list (value * Q)) : list (value * Q) :=
  match l with
  | [] => [e]
  | x :: l' => if Qle_bool x.2 e.2 then x :: insert_after e l' else e :: l
  end.

Definition stable_sort (l : list (value * Q)) : list (value * Q) :=
  fold_left (fun acc e => insert_after e acc) l [].

Fixpoint insert_before (e : value * Q) (l : list (value * Q)) : list (value * Q) :=
  match l with
  | [] => [e]
  | x :: l' => if Qle_bool e.2 x.2 then e :: l else x :: insert_before e l'
  end.

Definition unstable_sort (l : list (value * Q)) : list (value * Q) :=
  fold_left (fun acc e => insert_before e acc) l [].

(** ** The functions that touch the file system, the data base and the
    plot window *)

Section Pipeline.

(** The state of everything outside the process, the open data base
    connections, and the library calls that act on them. Each call takes
    the state and hands back the state after it together with its result
    or the exception it raised. *)
Context {World Conn : Type}.
Variable read_csv : string -> World -> M DataFrame * World.
Variable connect : string -> World -> M Conn * World.
Variable to_sql : DataFrame -> string -> Conn -> World -> M unit * World.
Variable close : Conn -> World -> M unit * World.
Variable read_sql_query : string -> Conn -> World -> M DataFrame * World.
Variable bar_chart : list value -> list value -> World -> M unit * World.
Variable to_csv : DataFrame -> string -> World -> M unit * World.

Definition IO (A : Type) : Type := World -> M A * World.

Definition io_ret {A} (a : A) : IO A := fun w => (ret a, w).
Definition io_bind {A B} (m : IO A) (k : A -> IO B) : IO B :=
  fun w =>
    match m w with
    | (inl e, w') => (inl e, w')
    | (inr a, w') => k a w'
    end.
Definition lift {A} (m : M A) : IO A := fun w => (m, w).

Notation "'do*' x ':=' m 'in' k" := (io_bind m (fun x => k))
  (at level 10, x name, m at level 100, k at level 200).

(** [try: ... except Exception as e: logging.error(...)] around a body that
    acts on the world. *)
Definition try_except_io {A} (body : IO A) (done failed : string)
  : World -> (outcome (option A) * list log_record) * World :=
  fun w => let (r, w') := body w in (try_except r done failed, w').

(** A function without [return] hands back [None] also when its body ran
    to the end. *)
Definition no_return {A} (r : outcome (option A) * list log_record)
  : outcome (option unit) * list log_record :=
  (match r.1 with
   | Returns _ => Returns None
   | Propagates e => Propagates e
   end, r.2).

Definition create_database (csv_file db_file : string)
  : World -> (outcome (option unit) * list log_record) * World :=
  fun w =>
    let (r, w') :=
      try_except_io
        (do* data := read_csv csv_file in
         do* conn := connect db_file in
         do* _ := to_sql data "fastfood" conn in
         close conn)
        "Database created successfully."
        "Error creating database: " w in
    (no_return r, w').

Definition read_data_from_database (db_file : string)
  : World -> (outcome (option DataFrame) * list log_record) * World :=
  try_except_io
    (do* conn := connect db_file in
     do* data := read_sql_query "SELECT * FROM fastfood" conn in
     do* _ := close conn in
     io_ret data)
    "Data read from database successfully."
    "Error reading data from database: ".

(** [ranked_restaurants[col]] *)
Definition subscript (data : option DataFrame) (col : string) : M (list value) :=
  match data with
  | Some d => column d col
  | None => raise (TypeError "'NoneType' object is not subscriptable")
  end.

Definition plot_top_restaurants_chart (ranked_restaurants : option DataFrame)
  : World -> (outcome (option unit) * list log_record) * World :=
  fun w =>
    let (r, w') :=
      try_except_io
        (do* x := lift (subscript ranked_restaurants "restaurant") in
         do* height := lift (subscript ranked_restaurants "total_carb") in
         bar_chart x height)
        "Chart plotted successfully."
        "Error plotting chart: " w in
    (no_return r, w').

Definition export_categorized_data_to_csv (categorized_data : option DataFrame)
    (csv_file : string)
  : World -> (outcome (option unit) * list log_record) * World :=
  fun w =>
    let (r, w') :=
      try_except_io
        (do* data := lift (getattr categorized_data "to_csv") in
         to_csv data csv_file)
        "Categorized data exported to CSV successfully."
        "Error exporting categorized data to CSV: " w in
    (no_return r, w').

(** A call statement of [main]: the log records of the callee follow those
    emitted so far, and what it returned goes to the statements after it.
    An exception that left the callee would leave [main] too. *)
Definition call {A B} (r : (outcome (option A) * list log_record) * World)
    (k : option A -> World -> (outcome (option B) * list log_record) * World)
  : (outcome (option B) * list log_record) * World :=
  match r with
  | ((Returns v, log), w) =>
      let '((o, log'), w') := k v w in ((o, (log ++ log')%list), w')
  | ((Propagates e, log), w) => ((Propagates e, log), w)
  end.

(** [main()]. The frame [categorize_food_items] and [add_subcategory]
    return is the one they were given, changed in place; [main] reads its
    statistics and its ranking before, and uses only what they return
    after. *)
Definition main (quicksort : list (value * Q) -> list (value * Q))
  : World -> (outcome (option unit) * list log_record) * World :=
  fun w =>
    let csv_file := "fastfood.csv" in
    let db_file := "fastfood.db" in
    let output_csv_file := "food_cats.csv" in
    call (create_database csv_file db_file w) (fun _ w =>
    call (read_data_from_database db_file w) (fun data w =>
    call (calculate_calorie_stats data, w) (fun calorie_stats w =>
    call (rank_restaurants_by_carbs quicksort data, w) (fun ranked_restaurants w =>
    call (plot_top_restaurants_chart ranked_restaurants w) (fun _ w =>
    call (categorize_food_items data, w) (fun categorized_data w =>
    call (add_subcategory categorized_data, w) (fun categorized_data w =>
    call (export_categorized_data_to_csv categorized_data output_csv_file w) (fun _ w =>
    ((Returns None, []), w))))))))).

End Pipeline.

(** * The notions the properties are stated with *)

(** [keyword] occurs in [name] when case is ignored: some run of [name]
    equals [keyword] up to the case of its letters. *)
Definition occurs_ci (keyword name : string) : Prop :=
  exists pre mid post, name = pre ++ mid ++ post /\ lower mid = lower keyword.

(** Some keyword of the group occurs in the name, case ignored. *)
Definition matches (keywords : list string) (name : string) : Prop :=
  exists keyword, In keyword keywords /\ occurs_ci keyword name.

(** The protein keywords in the order [get_subcategory] scans them, each
    with its label. *)
Definition proteins : list (string * string) :=
  [("chicken", "Chicken"); ("beef", "Beef"); ("seafood", "Seafood"); ("pork", "Pork")].

(** The labels of the protein keywords that occur in [name], case ignored,
    in scan order. *)
Definition protein_labels (name : string) : list string :=
  map snd (List.filter (fun p : string * string => contains p.1 (lower name)) proteins).

(** The categories [categorize_item] can return. *)
Definition categories : list string := ["Main"; "Side"; "Dessert"; "Other"].

(** The two classification steps as [main] runs them: the frame
    [categorize_food_items] returned is handed to [add_subcategory]. *)
Definition classify (data : option DataFrame) : outcome (option DataFrame) :=
  match (categorize_food_items data).1 with
  | Returns categorized_data => (add_subcategory categorized_data).1
  | Propagates e => Propagates e
  end.

(** A row is classified when its category and subcategory cells hold what
    the two row functions compute from it. *)
Definition classified (r : row) : Prop :=
  exists c s,
    categorize_item r = ret c /\ r !! "category" = Some c /\
    get_subcategory r = ret s /\ r !! "sub_category" = Some s.

(** [a < b] for Python strings: by code point, a proper prefix first. *)
Definition str_lt (a b : string) : Prop := String.compare a b = Lt.

(** Row [r] is the record [rec]: its restaurant is a name and its cell in
    column [col] is a number. *)
Definition is_record (col : string) (r : row) (rec : string * Q) : Prop :=
  r !! "restaurant" = Some (Str rec.1) /\ r !! col = Some (Num rec.2).

(** The frame [data] holds the records [recs], one per row, the values in
    column [col]. *)
Definition records (col : string) (data : DataFrame) (recs : list (string * Q)) : Prop :=
  "restaurant" ∈ columns data /\ col ∈ columns data /\
  Forall2 (is_record col) (rows data) recs.

(** The values of the records of one restaurant, in record order. *)
Definition values_of (recs : list (string * Q)) (name : string) : list Q :=
  map snd (List.filter (fun rec : string * Q => String.eqb rec.1 name) recs).

(** The average of a restaurant's values. *)
Definition average (recs : list (string * Q)) (name : string) : Q :=
  Qred (Qsum (values_of recs name) / inject_Z (Z.of_nat (length (values_of recs name)))).


(** The group [groupby] should hold for a restaurant. *)
Definition group_of (recs : list (string * Q)) (name : string) : value * list value :=
  (Str name, map Num (values_of recs name)).

(** The key and value cells of a frame whose rows are the records. *)
Definition cells_of (recs : list (string * Q)) : list (value * value) :=
  map (fun rec : string * Q => (Str rec.1, Num rec.2)) recs.

(** The entry of a restaurant in the series of averages. *)
Definition entry (recs : list (string * Q)) (name : string) : value * Q :=
  (Str name, average recs name).

(** The frame that lists the restaurants [top] with their averages. *)
Definition ranking_frame (recs : list (string * Q)) (top : list string) : DataFrame :=
  carb_frame (map (fun name => (Str name, Some (average recs name))) top).

(** The cell a row function computed, NaN when it raised. *)
Definition computed (m : M value) : value :=
  match m with
  | inr v => v
  | inl _ => NaN
  end.

(** What the two classification steps make of one row. *)
Definition classify_row (r : row) : row :=
  <["sub_category" := computed (get_subcategory (<["category" := computed (categorize_item r)]> r))]>
    (<["category" := computed (categorize_item r)]> r).

(** The one log record of a stage: its INFO message, or its ERROR prefix
    followed by the text of an exception. *)
Definition stage_record (done failed : string) (r : log_record) : Prop :=
  r = (INFO, done) \/ exists e, r = (ERROR, failed ++ str e).

(** The smallest and the largest of a restaurant's values. *)
Definition is_min (qs : list Q) (lo : Q) : Prop :=
  In lo qs /\ forall q, In q qs -> (lo <= q)%Q.

Definition is_max (qs : list Q) (hi : Q) : Prop :=
  In hi qs /\ forall q, In q qs -> (q <= hi)%Q.

(** * Example frames *)

(** A row of the data set. *)
Definition food (restaurant item : string) (calories total_carb : Z) : row :=
  <["total_carb" := Num (inject_Z total_carb)]>
    (<["calories" := Num (inject_Z calories)]>
       (<["item" := Str item]> (<["restaurant" := Str restaurant]> ∅))).

(** An item with a Main and a Dessert keyword in its name. *)
Definition burger_cake : row := food "Wendys" "Cheeseburger Cake" 900 80.

(** The four items of the specification's classifier examples. *)
Definition menu : DataFrame :=
  {| columns := ["restaurant"; "item"; "calories"; "total_carb"];
     rows := [food "Mcdonalds" "Chicken Sandwich" 400 40;
              food "Burger King" "Beef and Pork Burger" 700 50;
              food "Subway" "Side Salad" 50 10;
              food "Arbys" "Mystery Item" 300 30] |}.

(** What the classifier makes of them. *)
Definition menu_classified : DataFrame :=
  {| columns := ["restaurant"; "item"; "calories"; "total_carb"; "category"; "sub_category"];
     rows := [<["sub_category" := Str "Chicken,Other"]>
                (<["category" := Str "Main"]> (food "Mcdonalds" "Chicken Sandwich" 400 40));
              <["sub_category" := Str "Beef,Pork,Other"]>
                (<["category" := Str "Main"]> (food "Burger King" "Beef and Pork Burger" 700 50));
              <["sub_category" := Str ""]>
                (<["category" := Str "Side"]> (food "Subway" "Side Salad" 50 10));
              <["sub_category" := Str ""]>
                (<["category" := Str "Other"]> (food "Arbys" "Mystery Item" 300 30))] |}.

(** A frame with the four columns of the data set and no rows. *)
Definition no_rows : DataFrame :=
  {| columns := ["restaurant"; "item"; "calories"; "total_carb"]; rows := [] |}.

(** One restaurant with the calories 100, 200 and 300. *)
Definition one_restaurant : DataFrame :=
  {| columns := ["restaurant"; "item"; "calories"; "total_carb"];
     rows := [food "Subway" "Wrap" 100 20; food "Subway" "Sandwich" 200 30;
              food "Subway" "Pizza" 300 40] |}.

(** A frame with a calories cell that is no number. *)
Definition bad_calories : DataFrame :=
  {| columns := ["restaurant"; "item"; "calories"; "total_carb"];
     rows := [food "Mcdonalds" "Burger" 500 40;
              <["calories" := Str "n/a"]> (food "Subway" "Side Salad" 50 10);
              food "Mcdonalds" "Fries" 300 45] |}.

(** Six restaurants with the averages A=10, B=5, C=20, D=1, E=15, F=8. *)
Definition six_restaurants : DataFrame :=
  {| columns := ["restaurant"; "item"; "calories"; "total_carb"];
     rows := [food "A" "Burger" 500 5; food "B" "Fries" 300 5;
              food "C" "Cake" 400 10; food "A" "Pizza" 700 15;
              food "D" "Salad" 100 1; food "E" "Sandwich" 450 15;
              food "C" "Ice Cream" 350 30; food "F" "Wrap" 380 4;
              food "F" "Soup" 120 12] |}.

(** Their ranking: D, B, F, A, E. *)
Definition six_ranking : DataFrame :=
  carb_frame [(Str "D", Some 1%Q); (Str "B", Some 5%Q); (Str "F", Some 8%Q);
              (Str "A", Some 10%Q); (Str "E", Some 15%Q)].



(** A world that records the library calls made on it, for examples: each
    call writes its name down and returns or raises as told. *)
Definition traced {A} (name : string) (result : M A) : list string -> M A * list string :=
  fun w => (result, (w ++ [name])%list).

(** A file system and a data base that work: the file and the table hold
    [menu], the connection is the name of the data base file. *)
Definition ok_read_csv (csv_file : string) : list string -> M DataFrame * list string :=
  traced "read_csv" (ret menu).

Definition ok_connect (db_file : string) : list string -> M string * list string :=
  traced "connect" (ret db_file).

Definition ok_to_sql (data : DataFrame) (table : string) (conn : string)
  : list string -> M unit * list string :=
  traced "to_sql" (ret tt).

Definition ok_close (conn : string) : list string -> M unit * list string :=
  traced "close" (ret tt).

Definition ok_read_sql_query (query : string) (conn : string)
  : list string -> M DataFrame * list string :=
  traced "read_sql_query" (ret menu).

Definition ok_bar_chart (x height : list value) : list string -> M unit * list string :=
  traced "bar_chart" (ret tt).

Definition ok_to_csv (data : DataFrame) (csv_file : string)
  : list string -> M unit * list string :=
  traced ("to_csv " ++ csv_file) (ret tt).

(** Calls that fail: a table that cannot be written, a data base file that
    cannot be opened, a connection that cannot be closed. *)
Definition bad_to_sql (data : DataFrame) (table : string) (conn : string)
  : list string -> M unit * list string :=
  traced "to_sql" (raise (OSError "database is locked")).

Definition bad_connect (db_file : string) : list string -> M string * list string :=
  traced "connect" (raise (OSError "unable to open database file")).

Definition bad_close (conn : string) : list string -> M unit * list string :=
  traced "close" (raise (OSError "unable to close due to unfinalized statements")).

(** * Properties *)

(** ** Strings *)

Lemma lower_char_not_upper (c : ascii) : is_upper (lower_char c) = false.
Proof. destruct c as [[] [] [] [] [] [] [] []]; reflexivity. Qed.

Lemma lower_char_idem (c : ascii) : lower_char (lower_char c) = lower_char c.
Proof. unfold lower_char at 1. now rewrite lower_char_not_upper. Qed.

Lemma lower_idem (s : string) : lower (lower s) = lower s.
Proof. induction s as [|c s IH]; simpl; [reflexivity|]. now rewrite lower_char_idem, IH. Qed.

Lemma lower_app (a b : string) : lower (a ++ b) = lower a ++ lower b.
Proof. induction a as [|c a IH]; simpl; [reflexivity|]. now rewrite IH. Qed.

(** A split of [lower s] comes from a split of [s]. *)
Lemma lower_app_inv (s a b : string) :
  lower s = a ++ b -> exists s1 s2, s = s1 ++ s2 /\ lower s1 = a /\ lower s2 = b.
Proof.
  revert s. induction a as [|c a IH]; intros s H.
  - exists "", s. auto.
  - destruct s as [|d s]; simpl in H; [discriminate|].
    injection H as Hc Hs. destruct (IH _ Hs) as (s1 & s2 & -> & H1 & H2).
    exists (String d s1), s2. simpl. now rewrite Hc, H1.
Qed.

Lemma prefix_spec (sub s : string) :
  String.prefix sub s = true <-> exists post, s = sub ++ post.
Proof.
  revert s. induction sub as [|c sub IH]; intros s.
  - split; [exists s; reflexivity | destruct s; reflexivity].
  - destruct s as [|d s]; simpl.
    + split; [discriminate | intros [post H]; discriminate].
    + destruct (Ascii.ascii_dec c d) as [->|Hne].
      * rewrite IH. split; intros [post H]; exists post.
        -- now rewrite H.
        -- now injection H.
      * split; [discriminate | intros [post H]; injection H; congruence].
Qed.

(** [contains] is Python's substring test. *)
Lemma contains_spec (sub s : string) :
  contains sub s = true <-> exists pre post, s = pre ++ sub ++ post.
Proof.
  induction s as [|d s IH]; cbn [contains]; rewrite orb_true_iff, prefix_spec.
  - split.
    + intros [[post H]|H]; [|discriminate]. exists "", post. exact H.
    + intros (pre & post & H). left. destruct pre; [now exists post|discriminate].
  - rewrite IH. split.
    + intros [[post H]|(pre & post & H)].
      * exists "", post. exact H.
      * exists (String d pre), post. simpl. now rewrite H.
    + intros (pre & post & H). destruct pre as [|e pre]; simpl in H.
      * left. now exists post.
      * right. injection H as _ H. now exists pre, post.
Qed.

(** Whatever occurs in a lowered string is itself in lower case. *)
Lemma contains_lower_fixed (sub s : string) :
  contains sub (lower s) = true -> lower sub = sub.
Proof.
  rewrite contains_spec. intros (pre & post & H).
  apply lower_app_inv in H as (s1 & s23 & _ & _ & H).
  apply lower_app_inv in H as (s2 & s3 & _ & H & _).
  now rewrite <- H, lower_idem.
Qed.

Lemma contains_lower_spec (keyword name : string) :
  lower keyword = keyword ->
  contains keyword (lower name) = true <-> occurs_ci keyword name.
Proof.
  intros Hk. rewrite contains_spec. unfold occurs_ci. split.
  - intros (pre & post & H).
    apply lower_app_inv in H as (s1 & s23 & -> & _ & H).
    apply lower_app_inv in H as (s2 & s3 & -> & H & _).
    exists s1, s2, s3. now rewrite Hk.
  - intros (pre & mid & post & -> & H).
    exists (lower pre), (lower post). now rewrite !lower_app, H, Hk.
Qed.

(** ** Computations that may raise *)

Lemma mapM_ret {A B} (f : A -> M B) (l : list A) (bs : list B) :
  mapM f l = ret bs <-> Forall2 (fun a b => f a = ret b) l bs.
Proof.
  revert bs. induction l as [|a l IH]; intros bs; cbn [mapM].
  - unfold ret. split; intros H.
    + injection H as <-. constructor.
    + now inversion H.
  - destruct (f a) as [e|b] eqn:Hfa; cbn [bind].
    { split; [discriminate|]. intros H. inversion H; subst. unfold ret in *. congruence. }
    destruct (mapM f l) as [e|bs'] eqn:Hl; cbn [bind].
    + split; [discriminate|]. intros H. inversion H as [|? ? ? bs'' ? Hbs]; subst.
      apply IH in Hbs. discriminate.
    + split; intros H.
      * unfold ret in H. injection H as <-. constructor; [exact Hfa|]. now apply IH.
      * inversion H as [|? b' ? bs'' Hb Hbs]; subst. apply IH in Hbs.
        unfold ret in *. congruence.
Qed.

Lemma mapM_raises {A B} (f : A -> M B) (l : list A) (a : A) (e : exn) :
  In a l -> f a = raise e -> exists e', mapM f l = raise e'.
Proof.
  induction l as [|x l IH]; simpl; [contradiction|].
  unfold raise. intros [->|Hin] Hfa.
  - rewrite Hfa. now exists e.
  - destruct (f x) as [e1|b]; simpl; [now exists e1|].
    destruct (IH Hin Hfa) as [e' ->]. now exists e'.
Qed.

(** Every exception is handled: [try_except] never lets one through. *)
Lemma try_except_returns {A} (body : M A) (done failed : string) :
  match body with
  | inr v => try_except body done failed = (Returns (Some v), [(INFO, done)])
  | inl e => try_except body done failed = (Returns None, [(ERROR, failed ++ str e)])
  end.
Proof. destruct body as [e|v]; [destruct e|]; reflexivity. Qed.

Lemma try_except_Some {A} (body : M A) (done failed : string) (v : A) :
  (try_except body done failed).1 = Returns (Some v) <-> body = ret v.
Proof.
  pose proof (try_except_returns body done failed) as H.
  unfold ret. destruct body as [e|v']; rewrite H; simpl; split; intros H'; try discriminate.
  - injection H' as ->. reflexivity.
  - injection H' as ->. reflexivity.
Qed.

(** ** The classifier, row by row *)

Lemma any_keyword_in_Str (keywords : list string) (name : string) :
  any_keyword_in keywords (Str name) =
  ret (existsb (fun keyword => contains keyword (lower name)) keywords).
Proof.
  induction keywords as [|k ks IH]; simpl; [reflexivity|].
  destruct (contains k (lower name)); [reflexivity | exact IH].
Qed.

Lemma existsb_matches (keywords : list string) (name : string) :
  Forall (fun keyword => lower keyword = keyword) keywords ->
  existsb (fun keyword => contains keyword (lower name)) keywords = true <->
  matches keywords name.
Proof.
  intros Hlow. rewrite existsb_exists. unfold matches.
  rewrite Forall_forall in Hlow.
  split; intros (k & Hin & H); exists k; (split; [exact Hin|]).
  - apply contains_lower_spec; [|exact H]. apply Hlow. now apply list_elem_of_In.
  - apply contains_lower_spec; [|exact H]. apply Hlow. now apply list_elem_of_In.
Qed.

Lemma keywords_lower :
  Forall (fun keyword => lower keyword = keyword) main_keywords /\
  Forall (fun keyword => lower keyword = keyword) side_keywords /\
  Forall (fun keyword => lower keyword = keyword) dessert_keywords.
Proof. repeat split; repeat constructor. Qed.

(** The category of a row whose item is a string: the nested tests of
    [categorize_item] on the lowered name. *)
Lemma categorize_item_Str (r : row) (name : string) :
  r !! "item" = Some (Str name) ->
  categorize_item r =
  ret (Str (if existsb (fun k => contains k (lower name)) main_keywords then "Main"
            else if existsb (fun k => contains k (lower name)) side_keywords then "Side"
            else if existsb (fun k => contains k (lower name)) dessert_keywords then "Dessert"
            else "Other")).
Proof.
  intros Hitem. unfold categorize_item, getitem. rewrite Hitem.
  cbn [bind ret]. rewrite !any_keyword_in_Str. cbn [bind ret].
  destruct (existsb _ main_keywords); [reflexivity|].
  destruct (existsb _ side_keywords); [reflexivity|].
  destruct (existsb _ dessert_keywords); reflexivity.
Qed.

(** A row gets a category only when its item is a string. *)
Lemma categorize_item_ret (r : row) (c : value) :
  categorize_item r = ret c -> exists name, r !! "item" = Some (Str name).
Proof.
  unfold categorize_item, getitem. destruct (r !! "item") as [[name| |]|]; try discriminate.
  intros _. now exists name.
Qed.

(** C2. [categorize_item] gives every item name exactly one category: Main
    when a Main keyword occurs in the name (case ignored), else Side when a
    Side keyword does, else Dessert when a Dessert keyword does, else
    Other. A name with both "burger" and "cake" in it is Main. *)
Theorem categorize_item_first_group_wins (r : row) (name : string) :
  r !! "item" = Some (Str name) ->
  exists c,
    categorize_item r = ret (Str c) /\
    (c = "Main" <-> matches main_keywords name) /\
    (c = "Side" <-> ~ matches main_keywords name /\ matches side_keywords name) /\
    (c = "Dessert" <->
       ~ matches main_keywords name /\ ~ matches side_keywords name /\
       matches dessert_keywords name) /\
    (c = "Other" <->
       ~ matches main_keywords name /\ ~ matches side_keywords name /\
       ~ matches dessert_keywords name) /\
    (occurs_ci "burger" name -> occurs_ci "cake" name -> c = "Main").
Proof.
  intros Hitem. rewrite (categorize_item_Str r name Hitem).
  destruct keywords_lower as (Hm & Hs & Hd).
  pose proof (existsb_matches main_keywords name Hm) as Em.
  pose proof (existsb_matches side_keywords name Hs) as Es.
  pose proof (existsb_matches dessert_keywords name Hd) as Ed.
  assert (Hburger : occurs_ci "burger" name -> matches main_keywords name).
  { intros H. exists "burger". split; [left; reflexivity | exact H]. }
  destruct (existsb _ main_keywords); [|destruct (existsb _ side_keywords);
    [|destruct (existsb _ dessert_keywords)]];
    eexists; (split; [reflexivity|]);
    repeat split; try discriminate; try tauto;
    try (intros; exfalso; intuition congruence);
    try (rewrite <- Em; discriminate); try (rewrite <- Es; discriminate);
    try (rewrite <- Ed; discriminate).
Qed.

(** The capitalised labels never occur in a lowered name. *)
Lemma label_not_in_lower (label name : string) :
  lower label <> label -> contains label (lower name) = false.
Proof.
  intros Hne. destruct (contains label (lower name)) eqn:H; [|reflexivity].
  apply contains_lower_fixed in H. contradiction.
Qed.

Lemma protein_labels_spec (name keyword label : string) :
  In (keyword, label) proteins ->
  In label (protein_labels name) <-> occurs_ci keyword name.
Proof.
  intros Hin. rewrite <- contains_lower_spec.
  - unfold protein_labels, proteins in *. simpl in Hin.
    destruct Hin as [H|[H|[H|[H|[]]]]]; injection H as <- <-; cbn [List.filter fst snd];
      destruct (contains "chicken" (lower name)), (contains "beef" (lower name)),
        (contains "seafood" (lower name)), (contains "pork" (lower name));
      simpl; split; intros; try discriminate; try reflexivity; try tauto;
      repeat match goal with H : _ \/ _ |- _ => destruct H end;
      try discriminate; try contradiction.
  - unfold proteins in Hin. simpl in Hin.
    destruct Hin as [H|[H|[H|[H|[]]]]]; injection H as <- <-; reflexivity.
Qed.

(** What [get_subcategory] returns for a Main row whose item is a string. *)
Lemma get_subcategory_Main (r : row) (name : string) :
  r !! "category" = Some (Str "Main") ->
  r !! "item" = Some (Str name) ->
  get_subcategory r = ret (Str (join "," (protein_labels name ++ ["Other"]))).
Proof.
  intros Hcat Hitem. unfold get_subcategory, getitem, append_if_in, protein_labels, proteins.
  rewrite Hcat, Hitem. cbn [bind ret eq_str lower_of List.filter fst snd].
  change ("Main" =? "Main")%string with true. cbn iota.
  assert (HC : contains "Chicken" (lower name) = false) by now apply label_not_in_lower.
  assert (HB : contains "Beef" (lower name) = false) by now apply label_not_in_lower.
  assert (HS : contains "Seafood" (lower name) = false) by now apply label_not_in_lower.
  assert (HP : contains "Pork" (lower name) = false) by now apply label_not_in_lower.
  destruct (contains "chicken" (lower name)), (contains "beef" (lower name)),
    (contains "seafood" (lower name)), (contains "pork" (lower name));
    cbn [app all_not_in lower_of bind ret map snd];
    rewrite ?HC, ?HB, ?HS, ?HP; cbn [negb bind ret all_not_in lower_of];
    rewrite ?HC, ?HB, ?HS, ?HP; cbn [negb bind ret all_not_in lower_of];
    rewrite ?HC, ?HB, ?HS, ?HP; cbn [negb bind ret all_not_in lower_of];
    rewrite ?HC, ?HB, ?HS, ?HP; cbn [negb bind ret all_not_in lower_of];
    reflexivity.
Qed.

(** What it returns for a row of any other category. *)
Lemma get_subcategory_not_Main (r : row) (category item : value) :
  r !! "category" = Some category ->
  r !! "item" = Some item ->
  eq_str category "Main" = false ->
  get_subcategory r = ret (Str "").
Proof.
  intros Hcat Hitem Hne. unfold get_subcategory, getitem.
  rewrite Hcat, Hitem. cbn [bind ret]. rewrite Hne. reflexivity.
Qed.

(** ** The classifier on a frame *)

Lemma nan_row_nil : nan_row [] = ∅.
Proof. reflexivity. Qed.

Lemma with_column_not_nil (col : string) (cols : list string) : with_column col cols <> [].
Proof.
  unfold with_column. case_bool_decide as H.
  - intros ->. inversion H.
  - destruct cols; discriminate.
Qed.

Lemma with_column_elem (col : string) (cols : list string) : col ∈ with_column col cols.
Proof.
  unfold with_column. case_bool_decide as H; [exact H|].
  apply elem_of_app. right. constructor.
Qed.

Lemma with_column_id (col : string) (cols : list string) :
  col ∈ cols -> with_column col cols = cols.
Proof. intros H. unfold with_column. now rewrite bool_decide_eq_true_2. Qed.

Lemma with_column_mono (col c : string) (cols : list string) :
  c ∈ cols -> c ∈ with_column col cols.
Proof.
  intros H. unfold with_column. case_bool_decide; [exact H|].
  apply elem_of_app. now left.
Qed.

Lemma Forall2_zip_with_insert (f : row -> M value) (col : string)
    (rs : list row) (cells : list value) :
  Forall2 (fun r c => f r = ret c) rs cells ->
  Forall2 (fun r r1 : row => exists c, f r = ret c /\ r1 = <[col := c]> r)
          rs (zip_with (fun (r : row) c => <[col := c]> r) rs cells).
Proof. induction 1; simpl; constructor; eauto. Qed.

(** [data[col] = data.apply(f, axis=1)], when it does not raise: the frame
    has the column, and every row got the cell [f] computed from it. *)
Lemma apply_setitem_ret (f : row -> M value) (col : string) (data d1 : DataFrame) :
  (exists e, f ∅ = raise e) ->
  (let* v := apply f data in setitem data col v) = ret d1 ->
  columns d1 = with_column col (columns data) /\
  Forall2 (fun r r1 : row => exists c, f r = ret c /\ r1 = <[col := c]> r)
          (rows data) (rows d1).
Proof.
  intros [e He]. unfold apply. destruct data as [cols rs]; cbn [rows columns].
  assert (Hseries : forall cells,
    Forall2 (fun r c => f r = ret c) rs cells ->
    setitem {| columns := cols; rows := rs |} col (Series cells) = ret d1 ->
    columns d1 = with_column col cols /\
    Forall2 (fun r r1 : row => exists c, f r = ret c /\ r1 = <[col := c]> r) rs (rows d1)).
  { intros cells HF H. unfold setitem, ret in H. injection H as <-. cbn [rows columns].
    split; [reflexivity|]. now apply Forall2_zip_with_insert. }
  destruct rs as [|r rs].
  - (* no row: the trial call decides *)
    destruct (f (nan_row cols)) as [e'|v]; cbn [bind ret].
    + unfold setitem. cbn [columns rows]. destruct cols as [|c [|c' cols]]; try discriminate.
      unfold ret. intros H. injection H as <-. cbn. split; [reflexivity|constructor].
    + apply Hseries. constructor.
  - destruct cols as [|c cols].
    + (* no column: the trial call is on the row without cells, and raises *)
      rewrite nan_row_nil, He. cbn [raise bind]. unfold setitem. cbn [columns]. discriminate.
    + destruct (mapM f (r :: rs)) as [e'|cells] eqn:Hm; cbn [bind ret]; [discriminate|].
      apply Hseries. now apply mapM_ret.
Qed.

(** On a frame with rows and columns the assignment goes through as soon
    as [f] returns on every row. *)
Lemma apply_setitem_total (f : row -> M value) (col : string) (data : DataFrame)
    (cells : list value) :
  rows data <> [] -> columns data <> [] ->
  Forall2 (fun r c => f r = ret c) (rows data) cells ->
  (let* v := apply f data in setitem data col v) =
  ret {| columns := with_column col (columns data);
         rows := zip_with (fun (r : row) c => <[col := c]> r) (rows data) cells |}.
Proof.
  intros Hr Hc HF. unfold apply.
  destruct (rows data) as [|r rs] eqn:Er; [contradiction|].
  destruct (columns data) as [|c cols] eqn:Ec; [contradiction|].
  apply mapM_ret in HF. rewrite HF. cbn [bind ret]. unfold setitem.
  now rewrite Er, Ec.
Qed.




Lemma categorize_item_empty : exists e, categorize_item ∅ = raise e.
Proof. now exists (KeyError "item"). Qed.

Lemma get_subcategory_empty : exists e, get_subcategory ∅ = raise e.
Proof. now exists (KeyError "category"). Qed.

(** The category depends on the item alone. *)
Lemma categorize_item_item (r r' : row) :
  r !! "item" = r' !! "item" -> categorize_item r = categorize_item r'.
Proof. intros H. unfold categorize_item, getitem. now rewrite H. Qed.

(** The subcategory depends on the category and the item alone. *)
Lemma get_subcategory_item (r r' : row) :
  r !! "category" = r' !! "category" -> r !! "item" = r' !! "item" ->
  get_subcategory r = get_subcategory r'.
Proof. intros H1 H2. unfold get_subcategory, getitem. now rewrite H1, H2. Qed.

Lemma categorize_item_categories (r : row) (c : value) :
  categorize_item r = ret c -> exists cat, c = Str cat /\ In cat categories.
Proof.
  intros H. destruct (categorize_item_ret r c H) as [name Hitem].
  rewrite (categorize_item_Str r name Hitem) in H. unfold ret in H. injection H as <-.
  eexists; split; [reflexivity|]. unfold categories.
  repeat match goal with |- context [if ?b then _ else _] => destruct b end;
    simpl; tauto.
Qed.

(** The subcategory string of a row whose category came from
    [categorize_item]: empty exactly when the category is not Main. *)
Lemma get_subcategory_empty_iff (r : row) (cat : string) (s : value) :
  r !! "category" = Some (Str cat) ->
  get_subcategory r = ret s ->
  exists sub, s = Str sub /\ (sub = "" <-> cat <> "Main").
Proof.
  intros Hcat H.
  destruct (r !! "item") as [item|] eqn:Hitem.
  2:{ unfold get_subcategory, getitem in H. rewrite Hcat, Hitem in H. discriminate. }
  destruct (String.eqb_spec cat "Main") as [->|Hne].
  - destruct item as [name| |].
    + rewrite (get_subcategory_Main r name Hcat Hitem) in H. unfold ret in H.
      injection H as <-. eexists; split; [reflexivity|].
      split; [|congruence]. intros Hempty. exfalso. revert Hempty.
      unfold protein_labels, proteins. cbn [List.filter fst snd].
      destruct (contains "chicken" (lower name)), (contains "beef" (lower name)),
        (contains "seafood" (lower name)), (contains "pork" (lower name)); discriminate.
    + unfold get_subcategory, getitem in H. rewrite Hcat, Hitem in H. discriminate.
    + unfold get_subcategory, getitem in H. rewrite Hcat, Hitem in H. discriminate.
  - rewrite (get_subcategory_not_Main r (Str cat) item Hcat Hitem) in H.
    + unfold ret in H. injection H as <-. exists "". tauto.
    + simpl. now apply String.eqb_neq.
Qed.

(** A classified frame comes from the input row by row: each row keeps its
    cells and gets the category and the subcategory computed from it. *)
Lemma classify_rows (data d2 : DataFrame) :
  classify (Some data) = Returns (Some d2) ->
  columns d2 = with_column "sub_category" (with_column "category" (columns data)) /\
  Forall2 (fun r r2 : row => exists c s,
             categorize_item r = ret c /\
             get_subcategory (<["category" := c]> r) = ret s /\
             r2 = <["sub_category" := s]> (<["category" := c]> r))
          (rows data) (rows d2).
Proof.
  unfold classify. intros H.
  destruct (categorize_food_items (Some data)).1 as [[d1|]|e] eqn:H1; try discriminate.
  apply try_except_Some in H1. apply try_except_Some in H.
  cbn [getattr bind ret] in H1, H.
  apply apply_setitem_ret in H1 as [Hc1 HF1]; [|exact categorize_item_empty].
  apply apply_setitem_ret in H as [Hc2 HF2]; [|exact get_subcategory_empty].
  split; [now rewrite Hc2, Hc1|].
  clear Hc1 Hc2. revert HF2. generalize (rows d2).
  induction HF1 as [|r r1 rs rs1 (c & Hc & ->) HF1 IH]; intros l HF2; inversion HF2; subst.
  - constructor.
  - constructor; [|now apply IH].
    match goal with Hx : exists _, _ |- _ => destruct Hx as (s & Hs & ->) end. eauto.
Qed.

Lemma classify_classified (data d2 : DataFrame) :
  classify (Some data) = Returns (Some d2) -> Forall classified (rows d2).
Proof.
  intros H. apply classify_rows in H as [_ HF].
  induction HF as [|r r2 rs rs2 (c & s & Hc & Hs & ->) HF IH]; constructor; [|exact IH].
  exists c, s. repeat split.
  - rewrite <- Hc. apply categorize_item_item. now rewrite !lookup_insert_ne.
  - rewrite lookup_insert_ne by discriminate. apply lookup_insert_eq.
  - rewrite <- Hs. apply get_subcategory_item; now rewrite lookup_insert_ne.
  - apply lookup_insert_eq.
Qed.

(** Assigning to the rows the cells they already hold changes nothing. *)
Lemma zip_with_insert_id (f : row -> M value) (col : string) (rs : list row) :
  Forall (fun r : row => exists c, f r = ret c /\ r !! col = Some c) rs ->
  exists cells,
    Forall2 (fun r c => f r = ret c) rs cells /\
    zip_with (fun (r : row) c => <[col := c]> r) rs cells = rs.
Proof.
  induction 1 as [|r rs (c & Hc & Hl) HF (cells & IH1 & IH2)].
  - exists []. split; [constructor | reflexivity].
  - exists (c :: cells). split; [now constructor|].
    simpl. now rewrite IH2, insert_id.
Qed.

Lemma reclassify_step (f : row -> M value) (col : string) (d : DataFrame) :
  rows d <> [] -> col ∈ columns d ->
  Forall (fun r : row => exists c, f r = ret c /\ r !! col = Some c) (rows d) ->
  (let* v := apply f d in setitem d col v) = ret d.
Proof.
  intros Hr Hc HF. destruct (zip_with_insert_id f col (rows d) HF) as (cells & H1 & H2).
  rewrite (apply_setitem_total f col d cells Hr); [| |exact H1].
  - rewrite H2, with_column_id by exact Hc. now destruct d.
  - intros E. rewrite E in Hc. inversion Hc.
Qed.

(** C3. After classification every record has one of the four categories,
    and its sub_category is the empty string exactly when the category is
    not Main. *)
Theorem classified_category_and_sub_category (data d2 : DataFrame) (r : row) :
  classify (Some data) = Returns (Some d2) ->
  In r (rows d2) ->
  exists cat sub,
    r !! "category" = Some (Str cat) /\ In cat categories /\
    r !! "sub_category" = Some (Str sub) /\
    (sub = "" <-> cat <> "Main").
Proof.
  intros H Hin. apply classify_classified in H.
  rewrite Forall_forall in H. apply list_elem_of_In in Hin.
  destruct (H r Hin) as (c & s & Hc & Hlc & Hs & Hls).
  destruct (categorize_item_categories r c Hc) as (cat & -> & Hcat).
  destruct (get_subcategory_empty_iff r cat s Hlc Hs) as (sub & -> & Hsub).
  exists cat, sub. auto.
Qed.

(** C8. Classification is a function of the frame, and classifying a
    classified frame again changes no cell: the second run returns the same
    frame (it has rows to work on), any frame it returns has the same rows,
    and two records with the same item have the same category and
    sub_category. *)
Theorem classify_idempotent (data d2 : DataFrame) :
  classify (Some data) = Returns (Some d2) ->
  (forall d2', classify (Some data) = Returns (Some d2') -> d2' = d2) /\
  (rows data <> [] -> classify (Some d2) = Returns (Some d2)) /\
  (forall d3, classify (Some d2) = Returns (Some d3) -> rows d3 = rows d2) /\
  (forall r r' : row, In r (rows d2) -> In r' (rows d2) ->
     r !! "item" = r' !! "item" ->
     r !! "category" = r' !! "category" /\ r !! "sub_category" = r' !! "sub_category").
Proof.
  intros H. pose proof (classify_classified data d2 H) as Hcl.
  destruct (classify_rows data d2 H) as [Hcols HF].
  split; [|split; [|split]].
  - intros d2' H'. congruence.
  - intros Hrows.
    assert (Hr2 : rows d2 <> []).
    { intros E. rewrite E in HF. inversion HF. congruence. }
    assert (Hcat : "category" ∈ columns d2).
    { rewrite Hcols. apply with_column_mono, with_column_elem. }
    assert (Hsub : "sub_category" ∈ columns d2).
    { rewrite Hcols. apply with_column_elem. }
    assert (H1 : (categorize_food_items (Some d2)).1 = Returns (Some d2)).
    { apply try_except_Some. cbn [getattr bind ret].
      apply reclassify_step; [exact Hr2 | exact Hcat |].
      eapply Forall_impl; [exact Hcl|]. intros r (c & s & ? & ? & ? & ?). eauto. }
    unfold classify. rewrite H1.
    apply try_except_Some. cbn [getattr bind ret].
    apply reclassify_step; [exact Hr2 | exact Hsub |].
    eapply Forall_impl; [exact Hcl|]. intros r (c & s & ? & ? & ? & ?). eauto.
  - intros d3 H3. apply classify_rows in H3 as [_ HF3].
    clear HF. induction HF3 as [|r r3 rs rs3 (c & s & Hc & Hs & ->) HF3 IH].
    + reflexivity.
    + inversion Hcl as [|? ? (c' & s' & Hc' & Hlc' & Hs' & Hls') Hcl']; subst.
      rewrite Hc in Hc'. unfold ret in Hc'. injection Hc' as <-.
      rewrite (insert_id r "category" c Hlc') in *.
      rewrite Hs in Hs'. unfold ret in Hs'. injection Hs' as <-.
      rewrite (insert_id r "sub_category" s Hls'). f_equal. now apply IH.
  - intros r r' Hin Hin' Hitem. rewrite Forall_forall in Hcl.
    apply list_elem_of_In in Hin, Hin'.
    destruct (Hcl r Hin) as (c & s & Hc & Hlc & Hs & Hls).
    destruct (Hcl r' Hin') as (c' & s' & Hc' & Hlc' & Hs' & Hls').
    rewrite (categorize_item_item r r' Hitem), Hc' in Hc.
    unfold ret in Hc. injection Hc as <-.
    assert (Hcc : r !! "category" = r' !! "category") by now rewrite Hlc, Hlc'.
    rewrite (get_subcategory_item r r' Hcc Hitem), Hs' in Hs.
    unfold ret in Hs. injection Hs as <-.
    split; [exact Hcc | now rewrite Hls, Hls'].
Qed.

(** C9. For a Main record [get_subcategory] always ends the labels with
    Other, whatever protein keywords it found: the labels it collected are
    capitalised, the name it looks for them in is lowered, so the test
    that should detect "none found" holds every time. *)
Theorem get_subcategory_Main_appends_Other (r : row) (name : string) :
  r !! "category" = Some (Str "Main") ->
  r !! "item" = Some (Str name) ->
  exists labels,
    get_subcategory r = ret (Str (join "," labels)) /\
    labels = (protein_labels name ++ ["Other"])%list /\
    (forall keyword label, In (keyword, label) proteins ->
       In label (protein_labels name) <-> occurs_ci keyword name) /\
    In "Other" labels /\ List.last labels "" = "Other" /\
    (forall label, In label (map snd proteins) -> contains label (lower name) = false) /\
    all_not_in (protein_labels name) (Str name) = ret true.
Proof.
  intros Hcat Hitem. exists (protein_labels name ++ ["Other"])%list.
  assert (Hnot : forall label, In label (map snd proteins) ->
                 contains label (lower name) = false).
  { intros label Hin. apply label_not_in_lower. simpl in Hin.
    destruct Hin as [<-|[<-|[<-|[<-|[]]]]]; discriminate. }
  split; [now apply get_subcategory_Main|].
  split; [reflexivity|]. split; [intros keyword label; apply protein_labels_spec|].
  split; [apply in_or_app; right; now left|].
  split; [apply last_last|]. split; [exact Hnot|].
  assert (Hsub : forall l, (forall label, In label l -> contains label (lower name) = false) ->
                 all_not_in l (Str name) = ret true).
  { induction l as [|x l IH]; intros Hl; [reflexivity|].
    cbn [all_not_in lower_of bind ret]. rewrite (Hl x) by now left.
    cbn [negb]. apply IH. intros y Hy. apply Hl. now right. }
  apply Hsub. intros label Hin. apply Hnot.
  unfold protein_labels in Hin. apply in_map_iff in Hin as (p & <- & Hp).
  apply List.filter_In in Hp as [Hp _]. now apply in_map.
Qed.

(** ** The classifier returns a frame *)

Lemma get_subcategory_total (r : row) (c : value) :
  categorize_item r = ret c ->
  exists s, get_subcategory (<["category" := c]> r) = ret s.
Proof.
  intros Hc. destruct (categorize_item_ret r c Hc) as [name Hitem].
  destruct (categorize_item_categories r c Hc) as (cat & -> & _).
  assert (H1 : (<["category" := Str cat]> r : row) !! "category" = Some (Str cat))
    by apply lookup_insert_eq.
  assert (H2 : (<["category" := Str cat]> r : row) !! "item" = Some (Str name))
    by now rewrite lookup_insert_ne.
  destruct (String.eqb_spec cat "Main") as [->|Hne].
  - eexists. exact (get_subcategory_Main _ name H1 H2).
  - eexists. apply (get_subcategory_not_Main _ _ _ H1 H2). simpl. now apply String.eqb_neq.
Qed.

Lemma Forall2_total {A B} (R : A -> B -> Prop) (l : list A) :
  Forall (fun a => exists b, R a b) l -> exists k, Forall2 R l k.
Proof.
  induction 1 as [|a l [b Hb] _ [k IH]]; [exists []; constructor|].
  exists (b :: k). now constructor.
Qed.

Lemma classify_returns (data : DataFrame) :
  rows data <> [] -> columns data <> [] ->
  Forall (fun r : row => exists name, r !! "item" = Some (Str name)) (rows data) ->
  exists d2, classify (Some data) = Returns (Some d2).
Proof.
  intros Hr Hc Hitems.
  destruct (Forall2_total (fun (r : row) c => categorize_item r = ret c) (rows data))
    as [cells1 HF1].
  { eapply Forall_impl; [exact Hitems|]. intros r [name Hname].
    eexists. exact (categorize_item_Str r name Hname). }
  pose proof (apply_setitem_total categorize_item "category" data cells1 Hr Hc HF1) as H1.
  set (d1 := {| columns := with_column "category" (columns data);
                rows := zip_with (fun (r : row) c => <["category" := c]> r)
                                 (rows data) cells1 |}) in *.
  pose proof (Forall2_zip_with_insert categorize_item "category" _ _ HF1) as HF1'.
  destruct (Forall2_total (fun (r : row) s => get_subcategory r = ret s) (rows d1))
    as [cells2 HF2].
  { subst d1. cbn [rows]. clear -HF1'.
    induction HF1' as [|r r1 rs rs1 (c & Hcat & ->) _ IH]; constructor; [|exact IH].
    exact (get_subcategory_total r c Hcat). }
  assert (Hlen1 : length (rows d1) = length (rows data)).
  { symmetry. eapply Forall2_length. exact HF1'. }
  assert (Hr1 : rows d1 <> []).
  { intros E. rewrite E in Hlen1. destruct (rows data); [contradiction | discriminate]. }
  pose proof (apply_setitem_total get_subcategory "sub_category" d1 cells2 Hr1
                (with_column_not_nil _ _) HF2) as H2.
  eexists. unfold classify.
  replace (categorize_food_items (Some data)).1 with (Returns (Some d1)).
  - apply try_except_Some. cbn [getattr bind ret]. exact H2.
  - symmetry. apply try_except_Some. cbn [getattr bind ret]. exact H1.
Qed.

(** X2. On a frame that has rows, each with a string for its item, both
    classification steps return a frame. *)
Theorem classify_total (data : DataFrame) :
  rows data <> [] -> columns data <> [] ->
  Forall (fun r : row => exists name, r !! "item" = Some (Str name)) (rows data) ->
  exists d2, classify (Some data) = Returns (Some d2) /\
             length (rows d2) = length (rows data).
Proof.
  intros Hr Hc Hitems. destruct (classify_returns data Hr Hc Hitems) as [d2 Hd2].
  exists d2. split; [exact Hd2|].
  apply classify_rows in Hd2 as [_ HF]. symmetry. exact (Forall2_length _ _ _ HF).
Qed.

Lemma classify_total_witness :
  exists d2, classify (Some menu) = Returns (Some d2) /\
             length (rows d2) = length (rows menu).
Proof.
  apply classify_total; [discriminate | discriminate |].
  repeat constructor; eexists; reflexivity.
Defined.

(** ** The classifier on the specification's examples *)

Lemma classify_menu : classify (Some menu) = Returns (Some menu_classified).
Proof. vm_compute. reflexivity. Qed.

(** C1, on the code: the specification's two Main examples. The classifier
    gives "Chicken Sandwich" the labels Chicken and Other, and "Beef and
    Pork Burger" the labels Beef, Pork and Other: Other is there although
    protein keywords matched. *)
Theorem get_subcategory_examples :
  get_subcategory (<["category" := Str "Main"]> (food "Mcdonalds" "Chicken Sandwich" 400 40))
    = ret (Str "Chicken,Other") /\
  get_subcategory (<["category" := Str "Main"]> (food "Burger King" "Beef and Pork Burger" 700 50))
    = ret (Str "Beef,Pork,Other") /\
  (exists d, classify (Some menu) = Returns (Some d) /\
     column d "category" = ret [Str "Main"; Str "Main"; Str "Side"; Str "Other"] /\
     column d "sub_category" =
       ret [Str "Chicken,Other"; Str "Beef,Pork,Other"; Str ""; Str ""]).
Proof.
  split; [vm_compute; reflexivity|]. split; [vm_compute; reflexivity|].
  exists menu_classified. split; [exact classify_menu|].
  split; vm_compute; reflexivity.
Qed.

Lemma categorize_item_first_group_wins_witness :
  burger_cake !! "item" = Some (Str "Cheeseburger Cake") /\
  categorize_item burger_cake = ret (Str "Main").
Proof.
  split; [reflexivity|].
  destruct (categorize_item_first_group_wins burger_cake "Cheeseburger Cake" eq_refl)
    as (c & Hc & _ & _ & _ & _ & Hmain).
  rewrite Hc, Hmain; [reflexivity | |].
  - exists "Cheese", "burger", " Cake". split; reflexivity.
  - exists "Cheeseburger ", "Cake", "". split; reflexivity.
Defined.

Lemma classified_category_and_sub_category_witness :
  exists cat sub,
    (<["sub_category" := Str "Chicken,Other"]>
       (<["category" := Str "Main"]> (food "Mcdonalds" "Chicken Sandwich" 400 40)) : row)
      !! "category" = Some (Str cat) /\ In cat categories /\
    (<["sub_category" := Str "Chicken,Other"]>
       (<["category" := Str "Main"]> (food "Mcdonalds" "Chicken Sandwich" 400 40)) : row)
      !! "sub_category" = Some (Str sub) /\
    (sub = "" <-> cat <> "Main").
Proof.
  apply (classified_category_and_sub_category menu menu_classified).
  - exact classify_menu.
  - left. reflexivity.
Defined.

Lemma classify_idempotent_witness :
  classify (Some menu) = Returns (Some menu_classified) /\
  classify (Some menu_classified) = Returns (Some menu_classified).
Proof.
  split; [exact classify_menu|].
  apply (proj2 (classify_idempotent menu menu_classified classify_menu)). discriminate.
Defined.

Lemma get_subcategory_Main_appends_Other_witness :
  exists labels,
    get_subcategory (<["category" := Str "Main"]> (food "Mcdonalds" "Chicken Sandwich" 400 40))
      = ret (Str (join "," labels)) /\
    labels = (protein_labels "Chicken Sandwich" ++ ["Other"])%list /\
    (forall keyword label, In (keyword, label) proteins ->
       In label (protein_labels "Chicken Sandwich") <-> occurs_ci keyword "Chicken Sandwich") /\
    In "Other" labels /\ List.last labels "" = "Other" /\
    (forall label, In label (map snd proteins) ->
       contains label (lower "Chicken Sandwich") = false) /\
    all_not_in (protein_labels "Chicken Sandwich") (Str "Chicken Sandwich") = ret true.
Proof.
  apply (get_subcategory_Main_appends_Other
           (<["category" := Str "Main"]> (food "Mcdonalds" "Chicken Sandwich" 400 40))
           "Chicken Sandwich"); reflexivity.
Defined.

(** X3. Classification touches the two columns it assigns and no other cell. *)
Theorem classify_keeps_other_cells (data d2 : DataFrame) :
  classify (Some data) = Returns (Some d2) ->
  Forall2 (fun r r2 : row =>
             forall col, col <> "category" -> col <> "sub_category" -> r2 !! col = r !! col)
          (rows data) (rows d2).
Proof.
  intros H. apply classify_rows in H as [_ HF].
  induction HF as [|r r2 rs rs2 (c & s & _ & _ & ->) _ IH]; constructor; [|exact IH].
  intros col H1 H2. now rewrite !lookup_insert_ne.
Qed.

Lemma classify_keeps_other_cells_witness :
  Forall2 (fun r r2 : row =>
             forall col, col <> "category" -> col <> "sub_category" -> r2 !! col = r !! col)
          (rows menu) (rows menu_classified).
Proof. exact (classify_keeps_other_cells menu menu_classified classify_menu). Defined.

(** ** The order on restaurant names *)

Lemma str_lt_irrefl (a : string) : ~ str_lt a a.
Proof.
  unfold str_lt. intros H. pose proof (String.compare_antisym a a) as E.
  rewrite H in E. discriminate.
Qed.

Lemma str_lt_le (a b : string) : str_lt a b -> String.le a b.
Proof. unfold str_lt, String.le, String.leb. now intros ->. Qed.

Lemma str_lt_trans (a b c : string) : str_lt a b -> str_lt b c -> str_lt a c.
Proof.
  intros Hab Hbc. unfold str_lt. destruct (String.compare a c) eqn:E; [| reflexivity |].
  - apply String.compare_eq_iff in E as ->. unfold str_lt in *.
    rewrite String.compare_antisym, Hbc in Hab. discriminate.
  - assert (Hac : String.le a c).
    { transitivity b; now apply str_lt_le. }
    unfold String.le, String.leb in Hac. now rewrite E in Hac.
Qed.

Lemma str_gt_lt (a b : string) : String.compare a b = Gt -> str_lt b a.
Proof. unfold str_lt. intros H. now rewrite String.compare_antisym, H. Qed.

(** ** Grouping *)

Lemma values_of_snoc (recs : list (string * Q)) (n m : string) (q : Q) :
  values_of (recs ++ [(n, q)]) m =
  (values_of recs m ++ if String.eqb n m then [q] else [])%list.
Proof.
  unfold values_of. rewrite List.filter_app, map_app. cbn [List.filter fst].
  destruct (String.eqb n m); reflexivity.
Qed.

Lemma values_of_nil_iff (recs : list (string * Q)) (name : string) :
  values_of recs name = [] <-> ~ In name (map fst recs).
Proof.
  unfold values_of. induction recs as [|[n q] recs IH]; cbn [List.filter map fst].
  - tauto.
  - destruct (String.eqb_spec n name) as [->|Hne]; cbn [map].
    + split; [discriminate|]. intros H. exfalso. apply H. now left.
    + rewrite IH. simpl. tauto.
Qed.

Lemma group_of_snoc_other (recs : list (string * Q)) (n m : string) (q : Q) :
  n <> m -> group_of (recs ++ [(n, q)]) m = group_of recs m.
Proof.
  intros Hne. unfold group_of. rewrite values_of_snoc.
  apply String.eqb_neq in Hne. now rewrite Hne, app_nil_r.
Qed.

Lemma group_of_snoc_same (recs : list (string * Q)) (n : string) (q : Q) :
  group_of (recs ++ [(n, q)]) n = (Str n, (map Num (values_of recs n) ++ [Num q])%list).
Proof. unfold group_of. now rewrite values_of_snoc, String.eqb_refl, map_app. Qed.

(** One step of [groupby]: the groups of the records read so far become
    the groups of the records with one more. *)
Lemma add_to_group_spec (recs : list (string * Q)) (n : string) (q : Q)
    (names : list string) :
  StronglySorted str_lt names ->
  (In n (map fst recs) -> In n names) ->
  exists names',
    add_to_group (Str n) (Num q) (map (group_of recs) names) =
      map (group_of (recs ++ [(n, q)])) names' /\
    StronglySorted str_lt names' /\
    (forall m, In m names' <-> m = n \/ In m names).
Proof.
  intros Hsorted. induction Hsorted as [|m names Hs IH Hall]; intros Hin.
  - exists [n]. cbn [map add_to_group]. split; [|split].
    + rewrite group_of_snoc_same.
      assert (E : values_of recs n = []) by (apply values_of_nil_iff; tauto).
      now rewrite E.
    + repeat constructor.
    + simpl. intuition.
  - cbn [map add_to_group]. unfold group_of at 1. cbn [key_compare fst].
    rewrite Forall_forall in Hall.
    destruct (String.compare n m) eqn:E.
    + (* the group of [n] exists: the cell goes to its end *)
      apply String.compare_eq_iff in E as ->.
      exists (m :: names). cbn [map]. split; [|split].
      * rewrite group_of_snoc_same.
        f_equal. apply map_ext_in. intros x Hx. symmetry. apply group_of_snoc_other.
        intros ->. apply list_elem_of_In in Hx. exact (str_lt_irrefl _ (Hall _ Hx)).
      * now constructor; [|apply Forall_forall].
      * simpl. intuition.
    + (* [n] comes before every group: a new group in front *)
      exists (n :: m :: names). cbn [map]. split; [|split].
      * assert (Hn : values_of recs n = []).
        { apply values_of_nil_iff. intros H. destruct (Hin H) as [->|Hx].
          - exact (str_lt_irrefl _ E).
          - apply list_elem_of_In in Hx.
            exact (str_lt_irrefl _ (str_lt_trans _ _ _ E (Hall _ Hx))). }
        rewrite group_of_snoc_same, Hn. cbn [app map].
        f_equal. rewrite group_of_snoc_other.
        2:{ intros ->. exact (str_lt_irrefl _ E). }
        f_equal. apply map_ext_in. intros x Hx. symmetry. apply group_of_snoc_other.
        intros ->. apply list_elem_of_In in Hx.
        exact (str_lt_irrefl _ (str_lt_trans _ _ _ E (Hall _ Hx))).
      * constructor; [now constructor; [|apply Forall_forall]|].
        constructor; [exact E|]. apply Forall_forall. intros x Hx.
        exact (str_lt_trans _ _ _ E (Hall _ Hx)).
      * simpl. intuition.
    + (* [n] comes after the first group: go on in the rest *)
      apply str_gt_lt in E.
      destruct IH as (names' & H1 & H2 & H3).
      { intros H. destruct (Hin H) as [->|Hx]; [|exact Hx].
        exfalso. exact (str_lt_irrefl _ E). }
      exists (m :: names'). cbn [map]. split; [|split].
      * rewrite H1. f_equal. symmetry. apply group_of_snoc_other.
        intros ->. exact (str_lt_irrefl _ E).
      * constructor; [exact H2|]. apply Forall_forall. intros x Hx.
        apply list_elem_of_In, H3 in Hx as [->|Hx]; [exact E|].
        apply Hall. now apply list_elem_of_In.
      * intros x. simpl. rewrite H3. tauto.
Qed.

(** [groupby] makes one group per restaurant, in ascending order of the
    names, each holding the restaurant's values in record order. *)
Lemma groupby_spec (recs : list (string * Q)) :
  exists names,
    fold_left add_row (cells_of recs) [] = map (group_of recs) names /\
    StronglySorted str_lt names /\
    (forall m, In m names <-> In m (map fst recs)).
Proof.
  induction recs as [|[n q] recs IH] using rev_ind.
  - exists []. repeat split; [constructor | intros [] | intros []].
  - destruct IH as (names & H1 & H2 & H3).
    unfold cells_of. rewrite map_app, fold_left_app. fold (cells_of recs). rewrite H1.
    cbn [map fold_left add_row fst snd].
    destruct (add_to_group_spec recs n q names H2) as (names' & H1' & H2' & H3').
    { apply H3. }
    exists names'. split; [exact H1'|]. split; [exact H2'|].
    intros m. rewrite H3', H3, map_app, in_app_iff. simpl. intuition.
Qed.

(** ** Ranking *)

Lemma column_records (col : string) (data : DataFrame) (recs : list (string * Q)) :
  records col data recs ->
  column data "restaurant" = ret (map (fun rec : string * Q => Str rec.1) recs) /\
  column data col = ret (map (fun rec : string * Q => Num rec.2) recs).
Proof.
  intros (H1 & H2 & HF). unfold column.
  rewrite !bool_decide_eq_true_2 by assumption.
  split; f_equal; induction HF as [|r rec rs recs [Hr Hc] HF IH]; simpl;
    [reflexivity | rewrite Hr | reflexivity | rewrite Hc]; simpl; now rewrite IH.
Qed.

Lemma zip_cells_of (recs : list (string * Q)) :
  zip (map (fun rec : string * Q => Str rec.1) recs)
      (map (fun rec : string * Q => Num rec.2) recs) = cells_of recs.
Proof. induction recs as [|rec recs IH]; simpl; [reflexivity | now rewrite IH]. Qed.

Lemma numeric_Num (qs : list Q) : numeric (map Num qs) = ret qs.
Proof. induction qs as [|q qs IH]; simpl; [reflexivity | now rewrite IH]. Qed.

Lemma agg_mean_average (recs : list (string * Q)) (name : string) :
  In name (map fst recs) -> agg_mean (values_of recs name) = Some (average recs name).
Proof.
  intros Hin. unfold agg_mean, average.
  destruct (values_of recs name) eqn:E; [|reflexivity].
  apply values_of_nil_iff in E. contradiction.
Qed.

Lemma group_means_spec (recs : list (string * Q)) (names : list string) :
  (forall m, In m names -> In m (map fst recs)) ->
  group_means (map (group_of recs) names) =
  ret (map (fun name => (Str name, Some (average recs name))) names).
Proof.
  unfold group_means. induction names as [|n names IH]; intros Hin; [reflexivity|].
  cbn [map mapM]. unfold group_of at 1. cbn [fst snd].
  rewrite numeric_Num. cbn [bind ret].
  rewrite agg_mean_average by (apply Hin; now left).
  rewrite IH by (intros m Hm; apply Hin; now right). reflexivity.
Qed.

Lemma numbers_averages (recs : list (string * Q)) (names : list string) :
  numbers (map (fun name => (Str name, Some (average recs name))) names) =
  map (entry recs) names.
Proof. induction names as [|n names IH]; [reflexivity|]. cbn. now rewrite <- IH. Qed.

Lemma nans_averages (recs : list (string * Q)) (names : list string) :
  nans (map (fun name => (Str name, Some (average recs name))) names) = [].
Proof. induction names as [|n names IH]; [reflexivity|]. exact IH. Qed.

Lemma head_carb_frame (n : nat) (s : list (value * option Q)) :
  head n (carb_frame s) = carb_frame (take n s).
Proof. unfold head, carb_frame. cbn [rows columns]. now rewrite <- fmap_take. Qed.

(** What [rank_restaurants_by_carbs] returns on a frame of records: the
    first five of the restaurant names in the order the sorting algorithm
    leaves their entries in, each with its average. *)
Lemma rank_restaurants_by_carbs_spec (quicksort : list (value * Q) -> list (value * Q))
    (data : DataFrame) (recs : list (string * Q)) :
  (forall l, Permutation (quicksort l) l) ->
  records "total_carb" data recs ->
  exists names sorted_names,
    StronglySorted str_lt names /\
    (forall m, In m names <-> In m (map fst recs)) /\
    quicksort (map (entry recs) names) = map (entry recs) sorted_names /\
    Permutation sorted_names names /\
    rank_restaurants_by_carbs quicksort (Some data) =
      (Returns (Some (ranking_frame recs (take 5 sorted_names))),
       [(INFO, "Restaurants ranked by carbs on average successfully.")]).
Proof.
  intros Hperm Hrecs.
  destruct (column_records _ _ _ Hrecs) as [Hkeys Hvals].
  destruct (groupby_spec recs) as (names & Hgroups & Hsorted & Hnames).
  destruct (Permutation_map_inv _ _ (Hperm (map (entry recs) names)))
    as (sorted_names & Hq & Hp).
  exists names, sorted_names. repeat split; try assumption; try now apply Hnames.
  - now symmetry.
  - unfold rank_restaurants_by_carbs. cbn [getattr bind ret].
    rewrite Hkeys, Hvals. cbn [bind ret]. unfold groupby.
    rewrite zip_cells_of, Hgroups, group_means_spec by (intros m; apply Hnames).
    cbn [bind ret]. unfold sort_values.
    rewrite numbers_averages, nans_averages, Hq, app_nil_r, map_map.
    rewrite head_carb_frame, <- fmap_take. reflexivity.
Qed.

(** ** The two insertion sorts *)

Lemma by_value_trans (x y z : value * Q) : by_value x y -> by_value y z -> by_value x z.
Proof. unfold by_value. apply Qle_trans. Qed.

Lemma by_value_total (x y : value * Q) : Qle_bool x.2 y.2 = false -> by_value y x.
Proof.
  unfold by_value. intros H. destruct (Qlt_le_dec y.2 x.2) as [Hlt|Hle].
  - now apply Qlt_le_weak.
  - apply Qle_bool_iff in Hle. congruence.
Qed.

Lemma insert_after_Permutation (e : value * Q) (l : list (value * Q)) :
  Permutation (insert_after e l) (e :: l).
Proof.
  induction l as [|x l IH]; simpl; [reflexivity|].
  destruct (Qle_bool x.2 e.2); [|reflexivity].
  rewrite IH. apply perm_swap.
Qed.

Lemma insert_after_sorted (e : value * Q) (l : list (value * Q)) :
  StronglySorted by_value l -> StronglySorted by_value (insert_after e l).
Proof.
  induction 1 as [|x l Hs IH Hall]; simpl; [repeat constructor|].
  destruct (Qle_bool x.2 e.2) eqn:E.
  - constructor; [exact IH|]. rewrite insert_after_Permutation.
    constructor; [now apply Qle_bool_iff | exact Hall].
  - apply by_value_total in E. constructor; [now constructor|].
    constructor; [exact E|]. eapply Forall_impl; [exact Hall|].
    intros y Hy. eapply by_value_trans; eassumption.
Qed.



(** Inserting the entries one by one sorts, whatever the insertion does
    with ties. *)
Lemma insertion_Sorts (insert : value * Q -> list (value * Q) -> list (value * Q)) :
  (forall e l, Permutation (insert e l) (e :: l)) ->
  (forall e l, StronglySorted by_value l -> StronglySorted by_value (insert e l)) ->
  Sorts (fun l => fold_left (fun acc e => insert e acc) l []).
Proof.
  intros Hperm Hsorted.
  assert (H : forall l acc, StronglySorted by_value acc ->
            Permutation (fold_left (fun acc e => insert e acc) l acc) (acc ++ l) /\
            StronglySorted by_value (fold_left (fun acc e => insert e acc) l acc)).
  { induction l as [|e l IH]; intros acc Hacc; simpl.
    - rewrite app_nil_r. auto.
    - destruct (IH (insert e acc) (Hsorted _ _ Hacc)) as [IH1 IH2].
      split; [|exact IH2]. rewrite IH1, Hperm. simpl. apply Permutation_middle. }
  split; intros l; apply (H l []); constructor.
Qed.

Lemma stable_sort_Sorts : Sorts stable_sort.
Proof.
  apply (insertion_Sorts insert_after);
    [exact insert_after_Permutation | exact insert_after_sorted].
Qed.





(** ** The ranking on a frame of records *)

Lemma StronglySorted_str_lt_NoDup (l : list string) : StronglySorted str_lt l -> NoDup l.
Proof.
  induction 1 as [|x l Hs IH Hall]; constructor; [|exact IH].
  intros Hx. rewrite Forall_forall in Hall. exact (str_lt_irrefl _ (Hall _ Hx)).
Qed.

Lemma StronglySorted_map {A B} (R : B -> B -> Prop) (f : A -> B) (l : list A) :
  StronglySorted R (map f l) <-> StronglySorted (fun a b => R (f a) (f b)) l.
Proof.
  induction l as [|x l IH]; simpl.
  - split; constructor.
  - rewrite !StronglySorted_cons, IH, Forall_map. reflexivity.
Qed.

(** Where no two entries have the same value, sorting has one result. *)
Lemma Sorts_unique (sorter1 sorter2 : list (value * Q) -> list (value * Q))
    (l : list (value * Q)) :
  Sorts sorter1 -> Sorts sorter2 ->
  (forall x y, x ∈ l -> y ∈ l -> (x.2 == y.2)%Q -> x = y) ->
  sorter1 l = sorter2 l.
Proof.
  intros [P1 S1] [P2 S2] Hdistinct.
  apply (StronglySorted_unique_strong by_value); [|apply S1|apply S2|].
  - intros x y Hx Hy Hxy Hyx. rewrite P1 in Hx. rewrite P2 in Hy.
    apply Hdistinct; [exact Hx | exact Hy |]. now apply Qle_antisym.
  - now rewrite P1, P2.
Qed.

(** The ranking once the averages are there. *)
Lemma rank_restaurants_by_carbs_means (quicksort : list (value * Q) -> list (value * Q))
    (data : DataFrame) (means : list (value * option Q)) :
  (let* keys := column data "restaurant" in
   let* vals := column data "total_carb" in
   group_means (groupby keys vals)) = ret means ->
  rank_restaurants_by_carbs quicksort (Some data) =
    (Returns (Some (head 5 (carb_frame (sort_values quicksort means)))),
     [(INFO, "Restaurants ranked by carbs on average successfully.")]).
Proof.
  intros H. unfold rank_restaurants_by_carbs. cbn [getattr bind ret].
  destruct (column data "restaurant") as [e|keys]; [discriminate|].
  destruct (column data "total_carb") as [e|vals]; [discriminate|].
  cbn [bind] in *. now rewrite H.
Qed.

Lemma six_restaurants_ranking (quicksort : list (value * Q) -> list (value * Q)) :
  Sorts quicksort ->
  rank_restaurants_by_carbs quicksort (Some six_restaurants) =
    (Returns (Some six_ranking),
     [(INFO, "Restaurants ranked by carbs on average successfully.")]).
Proof.
  intros Hq.
  rewrite (rank_restaurants_by_carbs_means quicksort six_restaurants
             [(Str "A", Some 10%Q); (Str "B", Some 5%Q); (Str "C", Some 20%Q);
              (Str "D", Some 1%Q); (Str "E", Some 15%Q); (Str "F", Some 8%Q)])
    by (vm_compute; reflexivity).
  unfold sort_values.
  change (numbers _) with
    [(Str "A", 10%Q); (Str "B", 5%Q); (Str "C", 20%Q);
     (Str "D", 1%Q); (Str "E", 15%Q); (Str "F", 8%Q)].
  rewrite (Sorts_unique quicksort stable_sort _ Hq stable_sort_Sorts).
  - vm_compute. reflexivity.
  - intros x y Hx Hy. apply list_elem_of_In in Hx, Hy. simpl in Hx, Hy.
    repeat (destruct Hx as [<-|Hx]; [|]); try contradiction;
      repeat (destruct Hy as [<-|Hy]; [|]); try contradiction;
      try reflexivity; intros H; vm_compute in H; discriminate.
Qed.

(** C7. With any algorithm that sorts, the ranking of a frame of records
    lists restaurants of the frame, each once and with its average, in
    ascending order of the averages; it has five entries, or as many as
    there are restaurants when these are fewer, and then all of them; no
    restaurant left out has a smaller average than one listed. The six
    restaurants with averages A=10, B=5, C=20, D=1, E=15, F=8 are ranked
    D, B, F, A, E. *)
Theorem rank_restaurants_by_carbs_top5 (quicksort : list (value * Q) -> list (value * Q)) :
  Sorts quicksort ->
  (forall data recs, records "total_carb" data recs ->
     exists top,
       rank_restaurants_by_carbs quicksort (Some data) =
         (Returns (Some (ranking_frame recs top)),
          [(INFO, "Restaurants ranked by carbs on average successfully.")]) /\
       NoDup top /\
       (forall n, In n top -> In n (map fst recs)) /\
       length top = Nat.min 5 (length (remove_dups (map fst recs))) /\
       (length (remove_dups (map fst recs)) <= 5 ->
        forall n, In n (map fst recs) -> In n top) /\
       StronglySorted (fun a b => average recs a <= average recs b)%Q top /\
       (forall n m, In n top -> In m (map fst recs) -> ~ In m top ->
          (average recs n <= average recs m)%Q)) /\
  rank_restaurants_by_carbs quicksort (Some six_restaurants) =
    (Returns (Some six_ranking),
     [(INFO, "Restaurants ranked by carbs on average successfully.")]).
Proof.
  intros Hq. split; [|now apply six_restaurants_ranking].
  intros data recs Hrecs.
  destruct (rank_restaurants_by_carbs_spec quicksort data recs (sorts_permutation _ Hq) Hrecs)
    as (names & sorted_names & Hsorted & Hnames & Hqs & Hperm & Hrank).
  exists (take 5 sorted_names). split; [exact Hrank|].
  assert (Hnodup : NoDup sorted_names).
  { rewrite Hperm. now apply StronglySorted_str_lt_NoDup. }
  assert (Hlen : length sorted_names = length (remove_dups (map fst recs))).
  { apply Permutation_length. rewrite Hperm.
    apply NoDup_Permutation; [now apply StronglySorted_str_lt_NoDup | apply NoDup_remove_dups |].
    intros x. rewrite elem_of_remove_dups, !list_elem_of_In. apply Hnames. }
  assert (Hasc : StronglySorted (fun a b => average recs a <= average recs b)%Q sorted_names).
  { pose proof (sorts_ascending _ Hq (map (entry recs) names)) as H.
    rewrite Hqs in H. exact (proj1 (StronglySorted_map by_value (entry recs) _) H). }
  rewrite <- (take_drop 5 sorted_names) in Hnodup, Hasc.
  apply NoDup_app in Hnodup as (Hnd & _ & _).
  apply StronglySorted_app in Hasc as (Hcross & Hasc & _).
  assert (Hin : forall n, In n sorted_names <-> In n (map fst recs)).
  { intros n. rewrite <- Hnames, <- !list_elem_of_In. now rewrite Hperm. }
  repeat split.
  - exact Hnd.
  - intros n Hn. apply Hin. rewrite <- (take_drop 5 sorted_names).
    apply in_or_app. now left.
  - now rewrite length_take, Hlen.
  - intros Hle n Hn. rewrite take_ge by lia. now apply Hin.
  - exact Hasc.
  - intros n m Hn Hm Hnot. apply Hcross; [now apply list_elem_of_In|].
    apply Hin in Hm. rewrite <- (take_drop 5 sorted_names) in Hm.
    apply in_app_or in Hm as [Hm|Hm]; [contradiction | now apply list_elem_of_In].
Qed.

Lemma rank_restaurants_by_carbs_top5_witness :
  Sorts stable_sort /\
  rank_restaurants_by_carbs stable_sort (Some six_restaurants) =
    (Returns (Some six_ranking),
     [(INFO, "Restaurants ranked by carbs on average successfully.")]).
Proof.
  split; [exact stable_sort_Sorts|].
  exact (proj2 (rank_restaurants_by_carbs_top5 stable_sort stable_sort_Sorts)).
Defined.

(** ** Ties in the ranking *)














(** ** The statistics *)

(** The statistics of one restaurant with the calories 100, 200 and 300:
    mean 200, min 100, max 300. *)
Theorem calorie_stats_one_restaurant :
  calculate_calorie_stats (Some one_restaurant) =
    (Returns (Some (stats_frame [(Str "Subway", (Some 200%Q, Some 100%Q, Some 300%Q))])),
     [(INFO, "Calorie statistics calculated successfully.")]).
Proof. vm_compute. reflexivity. Qed.

(** ** Failures *)

(** Every function of the module ends in one of two ways, and in both it
    returns. *)
Lemma try_except_cases {A} (body : M A) (done failed : string) :
  (exists v, body = ret v /\
             try_except body done failed = (Returns (Some v), [(INFO, done)])) \/
  (exists e, body = raise e /\
             try_except body done failed = (Returns None, [(ERROR, failed ++ str e)])).
Proof.
  pose proof (try_except_returns body done failed) as H.
  destruct body as [e|v]; [right; exists e | left; exists v]; auto.
Qed.

(** A cell that went into [groupby] with a key is in one of the groups. *)
Lemma add_to_group_new (k v : value) (groups : list (value * list value)) :
  exists g, In g (add_to_group k v groups) /\ In v g.2.
Proof.
  induction groups as [|[k' vs] groups IH]; simpl.
  - exists (k, [v]). simpl. auto.
  - destruct (key_compare k k').
    + exists (k', (vs ++ [v])%list). split; [now left|]. simpl. apply in_or_app. simpl. auto.
    + exists (k, [v]). simpl. auto.
    + destruct IH as (g & Hg & Hv). exists g. simpl. auto.
Qed.

Lemma add_to_group_keeps (k v x : value) (groups : list (value * list value)) :
  (exists g, In g groups /\ In x g.2) ->
  exists g, In g (add_to_group k v groups) /\ In x g.2.
Proof.
  induction groups as [|[k' vs] groups IH]; simpl; intros (g & Hg & Hx); [contradiction|].
  destruct (key_compare k k').
  - destruct Hg as [<-|Hg].
    + exists (k', (vs ++ [v])%list). split; [now left|]. simpl. apply in_or_app. now left.
    + exists g. simpl. auto.
  - exists g. simpl. auto.
  - destruct Hg as [<-|Hg].
    + exists (k', vs). simpl. auto.
    + destruct IH as (g' & Hg' & Hx'); [now exists g|]. exists g'. simpl. auto.
Qed.

Lemma add_row_keeps (kv : value * value) (x : value) (groups : list (value * list value)) :
  (exists g, In g groups /\ In x g.2) ->
  exists g, In g (add_row groups kv) /\ In x g.2.
Proof.
  intros H. unfold add_row. destruct kv.1; try exact H; now apply add_to_group_keeps.
Qed.

Lemma groupby_holds (keys vals : list value) (k v : value) :
  In (k, v) (zip keys vals) -> k <> NaN ->
  exists g, In g (groupby keys vals) /\ In v g.2.
Proof.
  intros Hin Hk. unfold groupby.
  assert (Hkeep : forall kvs groups x,
            (exists g, In g groups /\ In x g.2) ->
            exists g, In g (fold_left add_row kvs groups) /\ In x g.2).
  { induction kvs as [|kv kvs IH]; intros groups x H; [exact H|].
    simpl. apply IH. now apply add_row_keeps. }
  generalize (@nil (value * list value)) as groups.
  induction (zip keys vals) as [|kv kvs IH]; intros groups; [contradiction|].
  simpl. destruct Hin as [->|Hin]; [|now apply IH].
  apply Hkeep. unfold add_row. cbn [fst snd].
  destruct k; try apply add_to_group_new. contradiction.
Qed.

Lemma numeric_Str (cells : list value) (s : string) :
  In (Str s) cells -> exists e, numeric cells = raise e.
Proof.
  induction cells as [|c cells IH]; simpl; [contradiction|].
  intros [->|Hin]; [eexists; reflexivity|].
  destruct (IH Hin) as [e He]. destruct c; [eexists; reflexivity | | exact (ex_intro _ e He)].
  rewrite He. now exists e.
Qed.

(** C5 as stated fails: on a frame with a calories cell that is no number
    [calculate_calorie_stats] raises nothing and hands back None; the
    failure is a record in the log. *)
Lemma calorie_stats_failure_is_logged :
  (calculate_calorie_stats (Some bad_calories)).1 = Returns None /\
  exists e,
    (calculate_calorie_stats (Some bad_calories)).2 =
      [(ERROR, "Error calculating calorie statistics: " ++ str e)].
Proof.
  split; [vm_compute; reflexivity|].
  exists (TypeError "Could not convert string 'n/a' to numeric"). vm_compute. reflexivity.
Qed.

(** C5, amended. When a record that belongs to a restaurant group has a
    string for its calories, [calculate_calorie_stats] computes no
    statistics for any group: it returns None, and its one log record is an
    ERROR made of the fixed prefix and the text of the exception. No
    exception reaches the caller. *)
Theorem calorie_stats_non_numeric (data : DataFrame) (r : row) (k : value) (s : string) :
  "restaurant" ∈ columns data -> "calories" ∈ columns data ->
  In r (rows data) ->
  r !! "restaurant" = Some k -> k <> NaN ->
  r !! "calories" = Some (Str s) ->
  exists e,
    calculate_calorie_stats (Some data) =
      (Returns None, [(ERROR, "Error calculating calorie statistics: " ++ str e)]).
Proof.
  intros Hc1 Hc2 Hin Hk Hnan Hs.
  unfold calculate_calorie_stats. cbn [getattr bind ret]. unfold column.
  rewrite !bool_decide_eq_true_2 by assumption. cbn [bind ret].
  set (keys := map _ (rows data)). set (vals := map _ (rows data)).
  assert (Hkv : In (k, Str s) (zip keys vals)).
  { subst keys vals. clear Hc1 Hc2. induction (rows data) as [|r' rs IH]; [contradiction|].
    simpl. destruct Hin as [->|Hin]; [left; now rewrite Hk, Hs | right; now apply IH]. }
  destruct (groupby_holds keys vals k (Str s) Hkv Hnan) as (g & Hg & Hcell).
  destruct (numeric_Str g.2 s Hcell) as [e He].
  destruct (mapM_raises (fun g => let* qs := numeric g.2 in ret (agg_mean qs))
              (groupby keys vals) g e Hg) as [e' He'].
  { rewrite He. reflexivity. }
  unfold agg. rewrite He'. exists e'. destruct e'; reflexivity.
Qed.

Lemma calorie_stats_non_numeric_witness :
  exists e,
    calculate_calorie_stats (Some bad_calories) =
      (Returns None, [(ERROR, "Error calculating calorie statistics: " ++ str e)]).
Proof.
  apply (calorie_stats_non_numeric bad_calories
           (<["calories" := Str "n/a"]> (food "Subway" "Side Salad" 50 10))
           (Str "Subway") "n/a").
  - apply list_elem_of_In. simpl. auto.
  - apply list_elem_of_In. simpl. auto.
  - simpl. auto.
  - reflexivity.
  - discriminate.
  - reflexivity.
Defined.

(** C6, on the code: the three operations on a frame without rows. The
    statistics and the ranking are frames without rows. The classifier
    does not return a frame: [apply] has no row to call [categorize_item]
    on and gives back a frame, the assignment of a frame with four columns
    to the one column category raises, and [categorize_food_items] logs
    the error and returns None; so does [add_subcategory] after it. *)
Theorem no_rows_outcomes :
  calculate_calorie_stats (Some no_rows) =
    (Returns (Some {| columns := ["restaurant"; "mean"; "min"; "max"]; rows := [] |}),
     [(INFO, "Calorie statistics calculated successfully.")]) /\
  rank_restaurants_by_carbs stable_sort (Some no_rows) =
    (Returns (Some {| columns := ["restaurant"; "total_carb"]; rows := [] |}),
     [(INFO, "Restaurants ranked by carbs on average successfully.")]) /\
  (categorize_food_items (Some no_rows)).1 = Returns None /\
  (exists e, (categorize_food_items (Some no_rows)).2 =
               [(ERROR, "Error categorizing food items: " ++ str e)]) /\
  add_subcategory None =
    (Returns None,
     [(ERROR, "Error adding subcategories: 'NoneType' object has no attribute 'apply'")]) /\
  classify (Some no_rows) = Returns None.
Proof.
  repeat split; try (vm_compute; reflexivity).
  eexists (ValueError _). vm_compute. reflexivity.
Qed.

Section PipelineProperties.

Context {World Conn : Type}.
Variable read_csv : string -> World -> M DataFrame * World.
Variable connect : string -> World -> M Conn * World.
Variable to_sql : DataFrame -> string -> Conn -> World -> M unit * World.
Variable close : Conn -> World -> M unit * World.
Variable read_sql_query : string -> Conn -> World -> M DataFrame * World.
Variable bar_chart : list value -> list value -> World -> M unit * World.
Variable to_csv : DataFrame -> string -> World -> M unit * World.

Lemma try_except_io_cases {A} (body : World -> M A * World) (done failed : string)
    (w : World) :
  (exists v, (try_except_io body done failed w).1 = (Returns (Some v), [(INFO, done)])) \/
  (exists e, (try_except_io body done failed w).1 =
             (Returns None, [(ERROR, failed ++ str e)])).
Proof.
  unfold try_except_io. destruct (body w) as [r w']. cbn [fst].
  destruct (try_except_cases r done failed) as [(v & _ & H)|(e & _ & H)]; eauto.
Qed.

Lemma no_return_cases {A} (body : World -> M A * World) (done failed : string)
    (w : World) :
  no_return (try_except_io body done failed w).1 = (Returns None, [(INFO, done)]) \/
  (exists e, no_return (try_except_io body done failed w).1 =
             (Returns None, [(ERROR, failed ++ str e)])).
Proof.
  destruct (try_except_io_cases body done failed w) as [(v & H)|(e & H)]; rewrite H.
  - now left.
  - right. now exists e.
Qed.

(** C10. None of the pipeline's functions lets an exception through: each
    either runs to its end and logs an INFO record, or handles the
    exception its body raised, logs an ERROR record with the exception's
    text, and returns None. This holds for every input and whatever the
    file system, the data base and the plot window do. *)
Theorem no_exception_leaves_the_pipeline :
  (forall csv_file db_file w,
     (create_database read_csv connect to_sql close csv_file db_file w).1 =
       (Returns None, [(INFO, "Database created successfully.")]) \/
     exists e, (create_database read_csv connect to_sql close csv_file db_file w).1 =
       (Returns None, [(ERROR, "Error creating database: " ++ str e)])) /\
  (forall db_file w,
     (exists data, (read_data_from_database connect close read_sql_query db_file w).1 =
       (Returns (Some data), [(INFO, "Data read from database successfully.")])) \/
     exists e, (read_data_from_database connect close read_sql_query db_file w).1 =
       (Returns None, [(ERROR, "Error reading data from database: " ++ str e)])) /\
  (forall data,
     (exists stats, calculate_calorie_stats data =
       (Returns (Some stats), [(INFO, "Calorie statistics calculated successfully.")])) \/
     exists e, calculate_calorie_stats data =
       (Returns None, [(ERROR, "Error calculating calorie statistics: " ++ str e)])) /\
  (forall quicksort data,
     (exists ranked, rank_restaurants_by_carbs quicksort data =
       (Returns (Some ranked), [(INFO, "Restaurants ranked by carbs on average successfully.")])) \/
     exists e, rank_restaurants_by_carbs quicksort data =
       (Returns None, [(ERROR, "Error ranking restaurants by carbs: " ++ str e)])) /\
  (forall data,
     (exists categorized, categorize_food_items data =
       (Returns (Some categorized), [(INFO, "Food items categorized successfully.")])) \/
     exists e, categorize_food_items data =
       (Returns None, [(ERROR, "Error categorizing food items: " ++ str e)])) /\
  (forall data,
     (exists categorized, add_subcategory data =
       (Returns (Some categorized), [(INFO, "Subcategories added for main food items.")])) \/
     exists e, add_subcategory data =
       (Returns None, [(ERROR, "Error adding subcategories: " ++ str e)])) /\
  (forall data csv_file w,
     (export_categorized_data_to_csv to_csv data csv_file w).1 =
       (Returns None, [(INFO, "Categorized data exported to CSV successfully.")]) \/
     exists e, (export_categorized_data_to_csv to_csv data csv_file w).1 =
       (Returns None, [(ERROR, "Error exporting categorized data to CSV: " ++ str e)])) /\
  (forall ranked w,
     (plot_top_restaurants_chart bar_chart ranked w).1 =
       (Returns None, [(INFO, "Chart plotted successfully.")]) \/
     exists e, (plot_top_restaurants_chart bar_chart ranked w).1 =
       (Returns None, [(ERROR, "Error plotting chart: " ++ str e)])).
Proof.
  repeat split; intros.
  - unfold create_database.
    match goal with |- context [try_except_io ?b ?d ?f ?w] =>
      pose proof (no_return_cases b d f w) as H; destruct (try_except_io b d f w) end.
    exact H.
  - apply try_except_io_cases.
  - match goal with |- context [calculate_calorie_stats ?d] =>
      unfold calculate_calorie_stats end.
    match goal with |- context [try_except ?b ?d ?f] =>
      destruct (try_except_cases b d f) as [(v & _ & H)|(e & _ & H)] end; eauto.
  - unfold rank_restaurants_by_carbs.
    match goal with |- context [try_except ?b ?d ?f] =>
      destruct (try_except_cases b d f) as [(v & _ & H)|(e & _ & H)] end; eauto.
  - unfold categorize_food_items.
    match goal with |- context [try_except ?b ?d ?f] =>
      destruct (try_except_cases b d f) as [(v & _ & H)|(e & _ & H)] end; eauto.
  - unfold add_subcategory.
    match goal with |- context [try_except ?b ?d ?f] =>
      destruct (try_except_cases b d f) as [(v & _ & H)|(e & _ & H)] end; eauto.
  - unfold export_categorized_data_to_csv.
    match goal with |- context [try_except_io ?b ?d ?f ?w] =>
      pose proof (no_return_cases b d f w) as H; destruct (try_except_io b d f w) end.
    exact H.
  - unfold plot_top_restaurants_chart.
    match goal with |- context [try_except_io ?b ?d ?f ?w] =>
      pose proof (no_return_cases b d f w) as H; destruct (try_except_io b d f w) end.
    exact H.
Qed.

End PipelineProperties.

(** ** Classification row by row *)

Lemma classify_row_spec (rs rs2 : list row) :
  Forall2 (fun r r2 : row => exists c s,
             categorize_item r = ret c /\
             get_subcategory (<["category" := c]> r) = ret s /\
             r2 = <["sub_category" := s]> (<["category" := c]> r))
          rs rs2 ->
  rs2 = map classify_row rs.
Proof.
  induction 1 as [|r r2 rs rs2 (c & s & Hc & Hs & ->) _ IH]; [reflexivity|].
  cbn [map]. rewrite <- IH. f_equal. unfold classify_row.
  unfold ret in Hc, Hs. rewrite Hc. cbn [computed]. rewrite Hs. reflexivity.
Qed.

(** X4. Each row of a classified frame is computed from the row at the same
    place of the input and from nothing else; the columns are those of the
    input, with category and sub_category added at the end where they were
    not there. *)
Theorem classify_rowwise (data d2 : DataFrame) :
  classify (Some data) = Returns (Some d2) ->
  columns d2 = with_column "sub_category" (with_column "category" (columns data)) /\
  rows d2 = map classify_row (rows data).
Proof.
  intros H. apply classify_rows in H as [Hcols HF]. split; [exact Hcols|].
  exact (classify_row_spec _ _ HF).
Qed.

Lemma classify_rowwise_witness :
  columns menu_classified =
    with_column "sub_category" (with_column "category" (columns menu)) /\
  rows menu_classified = map classify_row (rows menu).
Proof. exact (classify_rowwise menu menu_classified classify_menu). Defined.

(** The rows of a frame the classifier returned, read back from the input:
    every one of them can be classified. *)
Lemma classify_items (data d2 : DataFrame) :
  classify (Some data) = Returns (Some d2) ->
  Forall (fun r : row => exists name, r !! "item" = Some (Str name)) (rows data).
Proof.
  intros H. apply classify_rows in H as [_ HF].
  induction HF as [|r r2 rs rs2 (c & s & Hc & _ & _) _ IH]; constructor; [|exact IH].
  exact (categorize_item_ret r c Hc).
Qed.

Lemma classify_no_columns (r : row) (rs : list row) :
  classify (Some {| columns := []; rows := r :: rs |}) = Returns None.
Proof. reflexivity. Qed.

(** X5. Classification goes through a frame in pieces: when two frames with
    the same columns are classified, so is the frame with the rows of both,
    and its rows are theirs. *)
Theorem classify_app (cols : list string) (rs1 rs2 : list row) (d1 d2 : DataFrame) :
  classify (Some {| columns := cols; rows := rs1 |}) = Returns (Some d1) ->
  classify (Some {| columns := cols; rows := rs2 |}) = Returns (Some d2) ->
  classify (Some {| columns := cols; rows := (rs1 ++ rs2)%list |}) =
    Returns (Some {| columns := columns d1; rows := (rows d1 ++ rows d2)%list |}).
Proof.
  intros H1 H2.
  destruct (classify_rows _ _ H1) as [Hc1 Hr1]. apply classify_row_spec in Hr1.
  destruct (classify_rows _ _ H2) as [Hc2 Hr2]. apply classify_row_spec in Hr2.
  cbn [rows columns] in *.
  destruct rs1 as [|r1 rs1].
  { (* nothing in the first frame *)
    cbn [app]. rewrite Hr1. cbn [map app]. rewrite H2, Hc1, <- Hc2. now destruct d2. }
  destruct cols as [|c cols]; [rewrite classify_no_columns in H1; discriminate|].
  pose proof (classify_items _ _ H1) as I1. pose proof (classify_items _ _ H2) as I2.
  cbn [rows] in I1, I2.
  destruct (classify_returns {| columns := c :: cols; rows := ((r1 :: rs1) ++ rs2)%list |})
    as (d & Hd); cbn [rows columns]; try discriminate.
  { apply Forall_app. split; assumption. }
  rewrite Hd. destruct (classify_rows _ _ Hd) as [Hc Hr]. apply classify_row_spec in Hr.
  cbn [rows columns] in *.
  do 2 f_equal. destruct d as [dc dr]. cbn [rows columns] in *.
  now rewrite Hc, Hr, Hc1, Hr1, Hr2, map_app.
Qed.

Lemma classify_app_witness :
  classify (Some {| columns := columns menu; rows := (rows menu ++ rows menu)%list |}) =
    Returns (Some {| columns := columns menu_classified;
                     rows := (rows menu_classified ++ rows menu_classified)%list |}).
Proof. exact (classify_app (columns menu) (rows menu) (rows menu) _ _ classify_menu classify_menu). Defined.

(** ** What the classifier needs of a frame *)

(** X6. One row whose item is missing or is no string, and no row of the
    frame gets a category: [categorize_food_items] logs the error and
    returns None. *)
Theorem categorize_food_items_needs_string_items (data : DataFrame) (r : row) :
  columns data <> [] ->
  In r (rows data) ->
  (forall name, r !! "item" <> Some (Str name)) ->
  exists e,
    categorize_food_items (Some data) =
      (Returns None, [(ERROR, "Error categorizing food items: " ++ str e)]).
Proof.
  intros Hc Hin Hitem.
  assert (Hr : exists e, categorize_item r = raise e).
  { unfold categorize_item, getitem. destruct (r !! "item") as [[name| |]|];
      [destruct (Hitem name eq_refl) | | |]; eexists; reflexivity. }
  destruct Hr as [e He].
  destruct (mapM_raises categorize_item (rows data) r e Hin He) as [e' He'].
  unfold categorize_food_items. cbn [getattr bind ret]. unfold apply.
  destruct (rows data) as [|r0 rs]; [contradiction|].
  destruct (columns data) as [|c cols]; [contradiction|].
  rewrite He'. exists e'. destruct e'; reflexivity.
Qed.

Lemma categorize_food_items_needs_string_items_witness :
  exists e,
    categorize_food_items
      (Some {| columns := columns menu;
               rows := [food "Subway" "Side Salad" 50 10;
                        <["item" := NaN]> (food "Arbys" "Roast Beef" 300 30)] |}) =
      (Returns None, [(ERROR, "Error categorizing food items: " ++ str e)]).
Proof.
  apply (categorize_food_items_needs_string_items _
           (<["item" := NaN]> (food "Arbys" "Roast Beef" 300 30))).
  - discriminate.
  - simpl. auto.
  - intros name. discriminate.
Defined.

(** X7. [add_subcategory] reads the column category: on a frame that has rows
    and no such column (it was not given to [categorize_food_items]
    before) it logs the missing key and returns None. *)
Theorem add_subcategory_needs_category (data : DataFrame) (r : row) (rs : list row) :
  columns data <> [] ->
  rows data = r :: rs ->
  r !! "category" = None ->
  add_subcategory (Some data) =
    (Returns None, [(ERROR, "Error adding subcategories: 'category'")]).
Proof.
  intros Hc Hr Hcat. unfold add_subcategory. cbn [getattr bind ret]. unfold apply.
  rewrite Hr. destruct (columns data) as [|c cols]; [contradiction|].
  cbn [mapM]. unfold get_subcategory at 1, getitem at 1. rewrite Hcat. reflexivity.
Qed.

Lemma add_subcategory_needs_category_witness :
  add_subcategory (Some menu) =
    (Returns None, [(ERROR, "Error adding subcategories: 'category'")]).
Proof.
  apply (add_subcategory_needs_category menu (food "Mcdonalds" "Chicken Sandwich" 400 40)
           (List.tl (rows menu))); [discriminate | reflexivity | reflexivity].
Defined.

(** ** The statistics of every restaurant *)

Lemma fold_left_Qmin_In (qs : list Q) (q : Q) : In (fold_left Qmin qs q) (q :: qs).
Proof.
  revert q. induction qs as [|x qs IH]; intros q; cbn [fold_left]; [now left|].
  destruct (IH (Qmin q x)) as [H|H]; [|right; now right].
  rewrite <- H. unfold Qmin, GenericMinMax.gmin.
  destruct (q ?= x)%Q; [now left | now left | right; now left].
Qed.

Lemma fold_left_Qmax_In (qs : list Q) (q : Q) : In (fold_left Qmax qs q) (q :: qs).
Proof.
  revert q. induction qs as [|x qs IH]; intros q; cbn [fold_left]; [now left|].
  destruct (IH (Qmax q x)) as [H|H]; [|right; now right].
  rewrite <- H. unfold Qmax, GenericMinMax.gmax.
  destruct (q ?= x)%Q; [now left | right; now left | now left].
Qed.

Lemma fold_left_Qmin_le (qs : list Q) (q x : Q) :
  In x (q :: qs) -> (fold_left Qmin qs q <= x)%Q.
Proof.
  revert q x. induction qs as [|y qs IH]; intros q x; cbn [fold_left].
  - intros [<-|[]]. apply Qle_refl.
  - intros [<-|[<-|H]].
    + apply Qle_trans with (Qmin q y); [apply IH; now left | apply Q.le_min_l].
    + apply Qle_trans with (Qmin q y); [apply IH; now left | apply Q.le_min_r].
    + apply IH. now right.
Qed.

Lemma fold_left_Qmax_le (qs : list Q) (q x : Q) :
  In x (q :: qs) -> (x <= fold_left Qmax qs q)%Q.
Proof.
  revert q x. induction qs as [|y qs IH]; intros q x; cbn [fold_left].
  - intros [<-|[]]. apply Qle_refl.
  - intros [<-|[<-|H]].
    + apply Qle_trans with (Qmax q y); [apply Q.le_max_l | apply IH; now left].
    + apply Qle_trans with (Qmax q y); [apply Q.le_max_r | apply IH; now left].
    + apply IH. now right.
Qed.

(** [min] and [max] of a group return the smallest and the largest of its
    numbers. *)
Lemma agg_min_is_min (qs : list Q) (lo : Q) : agg_min qs = Some lo -> is_min qs lo.
Proof.
  destruct qs as [|q qs]; [discriminate|]. cbn [agg_min]. intros [= <-]. split.
  - apply fold_left_Qmin_In.
  - intros x. apply fold_left_Qmin_le.
Qed.

Lemma agg_max_is_max (qs : list Q) (hi : Q) : agg_max qs = Some hi -> is_max qs hi.
Proof.
  destruct qs as [|q qs]; [discriminate|]. cbn [agg_max]. intros [= <-]. split.
  - apply fold_left_Qmax_In.
  - intros x. apply fold_left_Qmax_le.
Qed.

(** An aggregation over the groups of the records. *)
Lemma mapM_numeric_groups {A} (f : list Q -> A) (recs : list (string * Q))
    (names : list string) :
  mapM (fun g : value * list value => let* qs := numeric g.2 in ret (f qs))
       (map (group_of recs) names) =
  ret (map (fun name => f (values_of recs name)) names).
Proof.
  induction names as [|n names IH]; [reflexivity|].
  cbn [map mapM]. unfold group_of at 1. cbn [snd].
  rewrite numeric_Num. cbn [bind ret]. rewrite IH. reflexivity.
Qed.

(** The row of the statistics frame for restaurant [name]. *)
Lemma agg_groups (recs : list (string * Q)) (names : list string) :
  agg (map (group_of recs) names) =
  ret (map (fun name => (Str name, (agg_mean (values_of recs name),
                                    agg_min (values_of recs name),
                                    agg_max (values_of recs name)))) names).
Proof.
  unfold agg. rewrite !mapM_numeric_groups. cbn [bind ret]. f_equal.
  induction names as [|n names IH]; [reflexivity|]. cbn. f_equal. exact IH.
Qed.

Lemma calculate_calorie_stats_records (data : DataFrame) (recs : list (string * Q))
    (names : list string) :
  records "calories" data recs ->
  fold_left add_row (cells_of recs) [] = map (group_of recs) names ->
  calculate_calorie_stats (Some data) =
    (Returns (Some (stats_frame
       (map (fun name => (Str name, (agg_mean (values_of recs name),
                                     agg_min (values_of recs name),
                                     agg_max (values_of recs name)))) names))),
     [(INFO, "Calorie statistics calculated successfully.")]).
Proof.
  intros Hrecs Hgroups. destruct (column_records _ _ _ Hrecs) as [Hkeys Hvals].
  unfold calculate_calorie_stats. cbn [getattr bind ret].
  rewrite Hkeys, Hvals. cbn [bind ret]. unfold groupby.
  rewrite zip_cells_of, Hgroups, agg_groups. reflexivity.
Qed.

(** X1. On a frame of records [calculate_calorie_stats] returns one row per
    restaurant, the restaurants in ascending order of their names; the row
    of a restaurant holds a number for the mean, and for min and max the
    smallest and the largest of the restaurant's calories. *)
Theorem calorie_stats_per_restaurant (data : DataFrame) (recs : list (string * Q)) :
  records "calories" data recs ->
  exists names stats,
    calculate_calorie_stats (Some data) =
      (Returns (Some (stats_frame stats)),
       [(INFO, "Calorie statistics calculated successfully.")]) /\
    StronglySorted str_lt names /\
    (forall m, In m names <-> In m (map fst recs)) /\
    Forall2 (fun name (s : value * (option Q * option Q * option Q)) =>
               exists mean lo hi,
                 s = (Str name, (Some mean, Some lo, Some hi)) /\
                 is_min (values_of recs name) lo /\
                 is_max (values_of recs name) hi)
            names stats.
Proof.
  intros Hrecs.
  destruct (groupby_spec recs) as (names & Hgroups & Hsorted & Hnames).
  exists names. eexists. split; [|split; [exact Hsorted | split; [exact Hnames|]]].
  - exact (calculate_calorie_stats_records data recs names Hrecs Hgroups).
  - assert (Hin : forall m, In m names -> In m (map fst recs)) by (intros m; apply Hnames).
    clear -Hin. induction names as [|n names IH]; cbn [map]; constructor.
    + assert (Hn : In n (map fst recs)) by (apply Hin; now left).
      pose proof (agg_mean_average recs n Hn) as Hmean. rewrite Hmean.
      destruct (agg_min (values_of recs n)) as [lo|] eqn:Hlo.
      2:{ destruct (values_of recs n); discriminate. }
      destruct (agg_max (values_of recs n)) as [hi|] eqn:Hhi.
      2:{ destruct (values_of recs n); discriminate. }
      apply agg_min_is_min in Hlo. apply agg_max_is_max in Hhi.
      exists (average recs n), lo, hi. split; [reflexivity|]. split; [exact Hlo | exact Hhi].
    + apply IH. intros m Hm. apply Hin. now right.
Qed.

Lemma calorie_stats_per_restaurant_witness :
  exists names stats,
    calculate_calorie_stats (Some one_restaurant) =
      (Returns (Some (stats_frame stats)),
       [(INFO, "Calorie statistics calculated successfully.")]) /\
    StronglySorted str_lt names /\
    (forall m, In m names <-> In m (map fst [("Subway", 100%Q); ("Subway", 200%Q); ("Subway", 300%Q)])) /\
    Forall2 (fun name (s : value * (option Q * option Q * option Q)) =>
               exists mean lo hi,
                 s = (Str name, (Some mean, Some lo, Some hi)) /\
                 is_min (values_of [("Subway", 100%Q); ("Subway", 200%Q); ("Subway", 300%Q)] name) lo /\
                 is_max (values_of [("Subway", 100%Q); ("Subway", 200%Q); ("Subway", 300%Q)] name) hi)
            names stats.
Proof.
  apply (calorie_stats_per_restaurant one_restaurant).
  split; [|split].
  - apply list_elem_of_In. simpl. auto.
  - apply list_elem_of_In. simpl. auto 10.
  - repeat constructor.
Defined.

(** ** What the aggregations need of a frame *)

(** X8. Without a column restaurant to group by, neither aggregation computes
    anything: each logs the missing key and returns None. *)
Theorem aggregations_need_restaurant (quicksort : list (value * Q) -> list (value * Q))
    (data : DataFrame) :
  "restaurant" ∉ columns data ->
  calculate_calorie_stats (Some data) =
    (Returns None, [(ERROR, "Error calculating calorie statistics: 'restaurant'")]) /\
  rank_restaurants_by_carbs quicksort (Some data) =
    (Returns None, [(ERROR, "Error ranking restaurants by carbs: 'restaurant'")]).
Proof.
  intros H. unfold calculate_calorie_stats, rank_restaurants_by_carbs.
  cbn [getattr bind ret]. unfold column at 1 3.
  rewrite !bool_decide_eq_false_2 by assumption. split; reflexivity.
Qed.

Lemma aggregations_need_restaurant_witness :
  calculate_calorie_stats (Some {| columns := ["item"; "calories"; "total_carb"]; rows := [] |}) =
    (Returns None, [(ERROR, "Error calculating calorie statistics: 'restaurant'")]) /\
  rank_restaurants_by_carbs unstable_sort
    (Some {| columns := ["item"; "calories"; "total_carb"]; rows := [] |}) =
    (Returns None, [(ERROR, "Error ranking restaurants by carbs: 'restaurant'")]).
Proof.
  apply (aggregations_need_restaurant unstable_sort
           {| columns := ["item"; "calories"; "total_carb"]; rows := [] |}).
  cbn [columns]. intros H. apply list_elem_of_In in H. simpl in H.
  repeat (destruct H as [H|H]; [discriminate H|]). exact H.
Defined.

(** A ranking that is returned is the head of a frame of averages. *)
Lemma ranked_restaurants_head (quicksort : list (value * Q) -> list (value * Q))
    (data : option DataFrame) (ranked : DataFrame) :
  (rank_restaurants_by_carbs quicksort data).1 = Returns (Some ranked) ->
  exists means, ranked = head 5 (carb_frame (sort_values quicksort means)).
Proof.
  intros H. apply try_except_Some in H.
  destruct data as [data|]; [|discriminate]. cbn [getattr bind ret] in H.
  destruct (column data "restaurant") as [e|keys]; [discriminate|]. cbn [bind] in H.
  destruct (column data "total_carb") as [e|vals]; [discriminate|]. cbn [bind] in H.
  destruct (group_means (groupby keys vals)) as [e|means]; [discriminate|]. cbn [bind] in H.
  unfold ret in H. injection H as <-. now exists means.
Qed.

(** X9. Whatever the frame and whatever the sorting algorithm does, a ranking
    that [rank_restaurants_by_carbs] returns has the two columns restaurant
    and total_carb and at most five rows. *)
Theorem rank_restaurants_by_carbs_at_most_five
    (quicksort : list (value * Q) -> list (value * Q))
    (data : option DataFrame) (ranked : DataFrame) :
  (rank_restaurants_by_carbs quicksort data).1 = Returns (Some ranked) ->
  columns ranked = ["restaurant"; "total_carb"] /\ length (rows ranked) <= 5.
Proof.
  intros H. destruct (ranked_restaurants_head quicksort data ranked H) as [means ->].
  cbn [head columns rows carb_frame]. split; [reflexivity|]. rewrite length_take. lia.
Qed.

(** On a frame of records the ranking returns a frame, whatever the
    sorting algorithm does. *)
Lemma rank_restaurants_by_carbs_returns (quicksort : list (value * Q) -> list (value * Q))
    (data : DataFrame) (recs : list (string * Q)) :
  records "total_carb" data recs ->
  exists ranked,
    rank_restaurants_by_carbs quicksort (Some data) =
      (Returns (Some ranked), [(INFO, "Restaurants ranked by carbs on average successfully.")]).
Proof.
  intros Hrecs. destruct (column_records _ _ _ Hrecs) as [Hkeys Hvals].
  destruct (groupby_spec recs) as (names & Hgroups & _ & Hnames).
  unfold rank_restaurants_by_carbs. cbn [getattr bind ret].
  rewrite Hkeys, Hvals. cbn [bind ret]. unfold groupby.
  rewrite zip_cells_of, Hgroups, group_means_spec by (intros m; apply Hnames).
  cbn [bind ret]. eexists. reflexivity.
Qed.

(** Both classification steps returned a frame: both logged their INFO
    record. *)
Lemma classify_stages (data : option DataFrame) (d2 : DataFrame) :
  classify data = Returns (Some d2) ->
  exists d1,
    categorize_food_items data =
      (Returns (Some d1), [(INFO, "Food items categorized successfully.")]) /\
    add_subcategory (Some d1) =
      (Returns (Some d2), [(INFO, "Subcategories added for main food items.")]).
Proof.
  unfold classify, categorize_food_items, add_subcategory. intros H.
  match type of H with context [try_except ?b ?d ?f] =>
    destruct (try_except_cases b d f) as [(d1 & _ & H1)|(e & _ & H1)]; rewrite H1 in H |- * end;
    cbn [fst] in H.
  - exists d1. split; [reflexivity|].
    match type of H with context [try_except ?b ?d ?f] =>
      destruct (try_except_cases b d f) as [(v & _ & H2)|(e & _ & H2)]; rewrite H2 in H |- * end;
      cbn [fst] in H; [|discriminate].
    now injection H as ->.
  - discriminate.
Qed.

Lemma rank_restaurants_by_carbs_at_most_five_witness :
  columns six_ranking = ["restaurant"; "total_carb"] /\ length (rows six_ranking) <= 5.
Proof.
  apply (rank_restaurants_by_carbs_at_most_five stable_sort (Some six_restaurants)).
  rewrite (six_restaurants_ranking stable_sort stable_sort_Sorts). reflexivity.
Defined.

(** ** The stages of [main] *)

(** A stage logs one record, its own, and returns. *)
Lemma try_except_stage {A} (body : M A) (done failed : string) :
  exists v r, try_except body done failed = (Returns v, [r]) /\
              stage_record done failed r.
Proof.
  destruct (try_except_cases body done failed) as [(v & _ & H)|(e & _ & H)]; rewrite H.
  - exists (Some v), (INFO, done). split; [reflexivity | now left].
  - exists None, (ERROR, failed ++ str e). split; [reflexivity | right; now exists e].
Qed.

Lemma calculate_calorie_stats_stage (data : option DataFrame) :
  exists v r, calculate_calorie_stats data = (Returns v, [r]) /\
              stage_record "Calorie statistics calculated successfully."
                           "Error calculating calorie statistics: " r.
Proof. apply try_except_stage. Qed.

Lemma rank_restaurants_by_carbs_stage (quicksort : list (value * Q) -> list (value * Q))
    (data : option DataFrame) :
  exists v r, rank_restaurants_by_carbs quicksort data = (Returns v, [r]) /\
              stage_record "Restaurants ranked by carbs on average successfully."
                           "Error ranking restaurants by carbs: " r.
Proof. apply try_except_stage. Qed.

Lemma categorize_food_items_stage (data : option DataFrame) :
  exists v r, categorize_food_items data = (Returns v, [r]) /\
              stage_record "Food items categorized successfully."
                           "Error categorizing food items: " r.
Proof. apply try_except_stage. Qed.

Lemma add_subcategory_stage (data : option DataFrame) :
  exists v r, add_subcategory data = (Returns v, [r]) /\
              stage_record "Subcategories added for main food items."
                           "Error adding subcategories: " r.
Proof. apply try_except_stage. Qed.

Section MainProperties.

Context {World Conn : Type}.
Variable read_csv : string -> World -> M DataFrame * World.
Variable connect : string -> World -> M Conn * World.
Variable to_sql : DataFrame -> string -> Conn -> World -> M unit * World.
Variable close : Conn -> World -> M unit * World.
Variable read_sql_query : string -> Conn -> World -> M DataFrame * World.
Variable bar_chart : list value -> list value -> World -> M unit * World.
Variable to_csv : DataFrame -> string -> World -> M unit * World.

Lemma io_bind_ret {A B} (m : World -> M A * World) (k : A -> World -> M B * World)
    (w w' : World) (a : A) :
  m w = (ret a, w') -> io_bind m k w = k a w'.
Proof. unfold io_bind. now intros ->. Qed.

Lemma io_bind_raise {A B} (m : World -> M A * World) (k : A -> World -> M B * World)
    (w w' : World) (e : exn) :
  m w = (raise e, w') -> io_bind m k w = (raise e, w').
Proof. unfold io_bind. now intros ->. Qed.

Lemma try_except_io_stage {A} (body : World -> M A * World) (done failed : string)
    (w : World) :
  exists v r, (try_except_io body done failed w).1 = (Returns v, [r]) /\
              stage_record done failed r.
Proof.
  unfold try_except_io. destruct (body w) as [r w']. cbn [fst]. apply try_except_stage.
Qed.

Lemma no_return_stage {A} (body : World -> M A * World) (done failed : string)
    (w : World) :
  exists r, no_return (try_except_io body done failed w).1 = (Returns None, [r]) /\
            stage_record done failed r.
Proof.
  destruct (try_except_io_stage body done failed w) as (v & r & H & S). rewrite H.
  now exists r.
Qed.

Lemma create_database_stage (csv_file db_file : string) (w : World) :
  exists r, (create_database read_csv connect to_sql close csv_file db_file w).1 =
              (Returns None, [r]) /\
            stage_record "Database created successfully." "Error creating database: " r.
Proof.
  unfold create_database.
  match goal with |- context [try_except_io ?b ?d ?f ?w] =>
    pose proof (no_return_stage b d f w) as H; destruct (try_except_io b d f w) end.
  exact H.
Qed.

Lemma plot_top_restaurants_chart_stage (ranked : option DataFrame) (w : World) :
  exists r, (plot_top_restaurants_chart bar_chart ranked w).1 = (Returns None, [r]) /\
            stage_record "Chart plotted successfully." "Error plotting chart: " r.
Proof.
  unfold plot_top_restaurants_chart.
  match goal with |- context [try_except_io ?b ?d ?f ?w] =>
    pose proof (no_return_stage b d f w) as H; destruct (try_except_io b d f w) end.
  exact H.
Qed.

Lemma export_categorized_data_to_csv_stage (data : option DataFrame) (csv_file : string)
    (w : World) :
  exists r, (export_categorized_data_to_csv to_csv data csv_file w).1 =
              (Returns None, [r]) /\
            stage_record "Categorized data exported to CSV successfully."
                         "Error exporting categorized data to CSV: " r.
Proof.
  unfold export_categorized_data_to_csv.
  match goal with |- context [try_except_io ?b ?d ?f ?w] =>
    pose proof (no_return_stage b d f w) as H; destruct (try_except_io b d f w) end.
  exact H.
Qed.

Lemma read_data_from_database_stage (db_file : string) (w : World) :
  exists v r, (read_data_from_database connect close read_sql_query db_file w).1 =
                (Returns v, [r]) /\
              stage_record "Data read from database successfully."
                           "Error reading data from database: " r.
Proof. apply try_except_io_stage. Qed.

(** A call of a stage that returned: its record goes to the log, its value
    and the world it left to the statements after it. *)
Lemma call_stage {A B} (x : (outcome (option A) * list log_record) * World)
    (k : option A -> World -> (outcome (option B) * list log_record) * World)
    (v : option A) (r : log_record) (o : outcome (option B)) (l : list log_record)
    (w' : World) :
  x.1 = (Returns v, [r]) -> k v x.2 = ((o, l), w') -> call x k = ((o, r :: l), w').
Proof.
  destruct x as [[o' l'] w]. cbn [fst snd]. intros [= -> ->] Hk. cbn [call].
  rewrite Hk. reflexivity.
Qed.

(** [main] from the outcomes of its stages: the value of a stage goes to
    the stages that use it, the records are logged in the order of the
    calls, and each stage that acts on the outside finds it as the one
    before left it. *)
Lemma main_run (quicksort : list (value * Q) -> list (value * Q)) (w : World)
    (v1 : option unit) (data calorie_stats ranked_restaurants : option DataFrame)
    (v5 : option unit) (categorized_data categorized_data' : option DataFrame)
    (v8 : option unit) (r1 r2 r3 r4 r5 r6 r7 r8 : log_record) :
  (create_database read_csv connect to_sql close "fastfood.csv" "fastfood.db" w).1 =
    (Returns v1, [r1]) ->
  (read_data_from_database connect close read_sql_query "fastfood.db"
     (create_database read_csv connect to_sql close "fastfood.csv" "fastfood.db" w).2).1 =
    (Returns data, [r2]) ->
  calculate_calorie_stats data = (Returns calorie_stats, [r3]) ->
  rank_restaurants_by_carbs quicksort data = (Returns ranked_restaurants, [r4]) ->
  (plot_top_restaurants_chart bar_chart ranked_restaurants
     (read_data_from_database connect close read_sql_query "fastfood.db"
        (create_database read_csv connect to_sql close "fastfood.csv" "fastfood.db" w).2).2).1 =
    (Returns v5, [r5]) ->
  categorize_food_items data = (Returns categorized_data, [r6]) ->
  add_subcategory categorized_data = (Returns categorized_data', [r7]) ->
  (export_categorized_data_to_csv to_csv categorized_data' "food_cats.csv"
     (plot_top_restaurants_chart bar_chart ranked_restaurants
        (read_data_from_database connect close read_sql_query "fastfood.db"
           (create_database read_csv connect to_sql close "fastfood.csv" "fastfood.db" w).2).2).2).1 =
    (Returns v8, [r8]) ->
  main read_csv connect to_sql close read_sql_query bar_chart to_csv quicksort w =
    ((Returns None, [r1; r2; r3; r4; r5; r6; r7; r8]),
     (export_categorized_data_to_csv to_csv categorized_data' "food_cats.csv"
        (plot_top_restaurants_chart bar_chart ranked_restaurants
           (read_data_from_database connect close read_sql_query "fastfood.db"
              (create_database read_csv connect to_sql close "fastfood.csv" "fastfood.db" w).2).2).2).2).
Proof.
  intros H1 H2 H3 H4 H5 H6 H7 H8. unfold main.
  eapply call_stage; [exact H1|]. cbv beta.
  eapply call_stage; [exact H2|]. cbv beta.
  eapply call_stage; [exact H3|]. cbv beta.
  eapply call_stage; [exact H4|]. cbv beta.
  eapply call_stage; [exact H5|]. cbv beta.
  eapply call_stage; [exact H6|]. cbv beta.
  eapply call_stage; [exact H7|]. cbv beta.
  eapply call_stage; [exact H8|]. cbv beta.
  reflexivity.
Qed.

(** X13. [main] runs its eight stages to the end whatever happens in them: it
    returns None, and its log holds exactly one record of each stage, in
    the order of the calls, each the stage's INFO message or its ERROR
    message. No failure of a stage stops the stages after it. *)
Theorem main_logs_every_stage (quicksort : list (value * Q) -> list (value * Q))
    (w : World) :
  exists r1 r2 r3 r4 r5 r6 r7 r8,
    (main read_csv connect to_sql close read_sql_query bar_chart to_csv quicksort w).1 =
      (Returns None, [r1; r2; r3; r4; r5; r6; r7; r8]) /\
    stage_record "Database created successfully." "Error creating database: " r1 /\
    stage_record "Data read from database successfully."
                 "Error reading data from database: " r2 /\
    stage_record "Calorie statistics calculated successfully."
                 "Error calculating calorie statistics: " r3 /\
    stage_record "Restaurants ranked by carbs on average successfully."
                 "Error ranking restaurants by carbs: " r4 /\
    stage_record "Chart plotted successfully." "Error plotting chart: " r5 /\
    stage_record "Food items categorized successfully."
                 "Error categorizing food items: " r6 /\
    stage_record "Subcategories added for main food items."
                 "Error adding subcategories: " r7 /\
    stage_record "Categorized data exported to CSV successfully."
                 "Error exporting categorized data to CSV: " r8.
Proof.
  destruct (create_database_stage "fastfood.csv" "fastfood.db" w) as (r1 & H1 & S1).
  destruct (read_data_from_database_stage "fastfood.db"
              (create_database read_csv connect to_sql close "fastfood.csv" "fastfood.db" w).2)
    as (data & r2 & H2 & S2).
  destruct (calculate_calorie_stats_stage data) as (calorie_stats & r3 & H3 & S3).
  destruct (rank_restaurants_by_carbs_stage quicksort data) as (ranked & r4 & H4 & S4).
  destruct (plot_top_restaurants_chart_stage ranked
              (read_data_from_database connect close read_sql_query "fastfood.db"
                 (create_database read_csv connect to_sql close "fastfood.csv" "fastfood.db" w).2).2)
    as (r5 & H5 & S5).
  destruct (categorize_food_items_stage data) as (categorized & r6 & H6 & S6).
  destruct (add_subcategory_stage categorized) as (categorized' & r7 & H7 & S7).
  destruct (export_categorized_data_to_csv_stage categorized' "food_cats.csv"
              (plot_top_restaurants_chart bar_chart ranked
                 (read_data_from_database connect close read_sql_query "fastfood.db"
                    (create_database read_csv connect to_sql close "fastfood.csv" "fastfood.db" w).2).2).2)
    as (r8 & H8 & S8).
  exists r1, r2, r3, r4, r5, r6, r7, r8.
  rewrite (main_run quicksort w _ _ _ _ _ _ _ _ _ _ _ _ _ _ _ _ H1 H2 H3 H4 H5 H6 H7 H8).
  cbn [fst]. repeat split; assumption.
Qed.

(** ** What the stages do to the outside *)

(** X11. When the table cannot be written, [create_database] logs the failure
    and returns with the connection still open: [close] is not called, the
    outside is as [to_sql] left it. *)
Theorem create_database_leaves_connection_open (csv_file db_file : string)
    (w w1 w2 w3 : World) (data : DataFrame) (conn : Conn) (e : exn) :
  read_csv csv_file w = (ret data, w1) ->
  connect db_file w1 = (ret conn, w2) ->
  to_sql data "fastfood" conn w2 = (raise e, w3) ->
  create_database read_csv connect to_sql close csv_file db_file w =
    ((Returns None, [(ERROR, "Error creating database: " ++ str e)]), w3).
Proof.
  intros Hcsv Hconn Hsql. unfold create_database, try_except_io.
  rewrite (io_bind_ret _ _ _ _ _ Hcsv), (io_bind_ret _ _ _ _ _ Hconn),
    (io_bind_raise _ _ _ _ _ Hsql).
  unfold raise. destruct e; reflexivity.
Qed.

(** X12. [read_data_from_database] hands the queried frame back only when the
    connection could be closed after the query: an exception of [close]
    is logged and the frame that was read is dropped. *)
Theorem read_data_from_database_needs_close (db_file : string) (w w1 w2 : World)
    (conn : Conn) (data : DataFrame) :
  connect db_file w = (ret conn, w1) ->
  read_sql_query "SELECT * FROM fastfood" conn w1 = (ret data, w2) ->
  read_data_from_database connect close read_sql_query db_file w =
    (match (close conn w2).1 with
     | inr _ => (Returns (Some data), [(INFO, "Data read from database successfully.")])
     | inl e => (Returns None, [(ERROR, "Error reading data from database: " ++ str e)])
     end, (close conn w2).2).
Proof.
  intros Hconn Hquery. unfold read_data_from_database, try_except_io.
  rewrite (io_bind_ret _ _ _ _ _ Hconn), (io_bind_ret _ _ _ _ _ Hquery).
  unfold io_bind, io_ret. destruct (close conn w2) as [[e|u] w3]; cbn [fst snd].
  - destruct e; reflexivity.
  - reflexivity.
Qed.

Lemma plot_top_restaurants_chart_frame (ranked : DataFrame) (w : World) :
  columns ranked = ["restaurant"; "total_carb"] ->
  plot_top_restaurants_chart bar_chart (Some ranked) w =
    (no_return
       (try_except
          (bar_chart (map (fun r : row => default NaN (r !! "restaurant")) (rows ranked))
                     (map (fun r : row => default NaN (r !! "total_carb")) (rows ranked)) w).1
          "Chart plotted successfully." "Error plotting chart: "),
     (bar_chart (map (fun r : row => default NaN (r !! "restaurant")) (rows ranked))
                (map (fun r : row => default NaN (r !! "total_carb")) (rows ranked)) w).2).
Proof.
  intros Hcols. unfold plot_top_restaurants_chart, try_except_io, io_bind, lift, subscript, column.
  rewrite Hcols. cbn [bool_decide decide_rel].
  rewrite !bool_decide_eq_true_2 by (apply list_elem_of_In; simpl; auto).
  unfold ret. destruct (bar_chart _ _ w) as [r w']. reflexivity.
Qed.

(** X10. The ranking and the chart fit together: a frame that
    [rank_restaurants_by_carbs] returned has the two columns the chart
    reads, so [plot_top_restaurants_chart] gets to the plotting calls and
    hands them the restaurants and the averages of its rows, at most five
    bars; only the plotting library can make it fail. *)
Theorem plot_shows_ranking (quicksort : list (value * Q) -> list (value * Q))
    (data : option DataFrame) (ranked : DataFrame) (w : World) :
  (rank_restaurants_by_carbs quicksort data).1 = Returns (Some ranked) ->
  exists x height,
    x = map (fun r : row => default NaN (r !! "restaurant")) (rows ranked) /\
    height = map (fun r : row => default NaN (r !! "total_carb")) (rows ranked) /\
    length x <= 5 /\
    plot_top_restaurants_chart bar_chart (Some ranked) w =
      (no_return (try_except (bar_chart x height w).1
                             "Chart plotted successfully." "Error plotting chart: "),
       (bar_chart x height w).2).
Proof.
  intros H. destruct (ranked_restaurants_head quicksort data ranked H) as [means ->].
  eexists _, _. split; [reflexivity|]. split; [reflexivity|]. split.
  - cbn [head rows]. rewrite length_map, length_take. lia.
  - now apply plot_top_restaurants_chart_frame.
Qed.

Lemma export_categorized_data_to_csv_frame (data : DataFrame) (csv_file : string)
    (w : World) :
  export_categorized_data_to_csv to_csv (Some data) csv_file w =
    (no_return (try_except (to_csv data csv_file w).1
                  "Categorized data exported to CSV successfully."
                  "Error exporting categorized data to CSV: "),
     (to_csv data csv_file w).2).
Proof.
  unfold export_categorized_data_to_csv, try_except_io, io_bind, lift. cbn [getattr].
  unfold ret. destruct (to_csv data csv_file w) as [r w']. reflexivity.
Qed.

(** ** [main] from end to end *)

(** X14. When no frame comes back from the data base, every stage after the
    read fails on None in its own way and says so in the log; nothing is
    plotted and nothing is exported: the outside is as the read left it. *)
Theorem main_without_data (quicksort : list (value * Q) -> list (value * Q)) (w : World) :
  (read_data_from_database connect close read_sql_query "fastfood.db"
     (create_database read_csv connect to_sql close "fastfood.csv" "fastfood.db" w).2).1.1 =
    Returns None ->
  exists r1 e,
    stage_record "Database created successfully." "Error creating database: " r1 /\
    main read_csv connect to_sql close read_sql_query bar_chart to_csv quicksort w =
      ((Returns None,
        [r1;
         (ERROR, "Error reading data from database: " ++ str e);
         (ERROR, "Error calculating calorie statistics: 'NoneType' object has no attribute 'groupby'");
         (ERROR, "Error ranking restaurants by carbs: 'NoneType' object has no attribute 'groupby'");
         (ERROR, "Error plotting chart: 'NoneType' object is not subscriptable");
         (ERROR, "Error categorizing food items: 'NoneType' object has no attribute 'apply'");
         (ERROR, "Error adding subcategories: 'NoneType' object has no attribute 'apply'");
         (ERROR, "Error exporting categorized data to CSV: 'NoneType' object has no attribute 'to_csv'")]),
       (read_data_from_database connect close read_sql_query "fastfood.db"
          (create_database read_csv connect to_sql close "fastfood.csv" "fastfood.db" w).2).2).
Proof.
  intros Hread.
  destruct (create_database_stage "fastfood.csv" "fastfood.db" w) as (r1 & H1 & S1).
  destruct (try_except_io_cases
              (io_bind (connect "fastfood.db") (fun conn =>
               io_bind (read_sql_query "SELECT * FROM fastfood" conn) (fun data =>
               io_bind (close conn) (fun _ => io_ret data))))
              "Data read from database successfully."
              "Error reading data from database: "
              (create_database read_csv connect to_sql close "fastfood.csv" "fastfood.db" w).2)
    as [(data & H2)|(e & H2)];
    fold (read_data_from_database connect close read_sql_query "fastfood.db") in H2.
  { rewrite H2 in Hread. discriminate. }
  exists r1, e. split; [exact S1|].
  rewrite (main_run quicksort w None None None None None None None None
             _ _ _ _ _ _ _ _ H1 H2 eq_refl eq_refl eq_refl eq_refl eq_refl eq_refl).
  reflexivity.
Qed.

(** X15. The frame [main] exports is the classified frame of the data it read:
    when the read returns a frame and the two classification steps return
    one for it, the last thing [main] does to the outside is to write that
    frame to food_cats.csv, after the chart of the ranking of the same
    data. *)
Theorem main_exports_classified_data (quicksort : list (value * Q) -> list (value * Q))
    (w : World) (data d2 : DataFrame) :
  (read_data_from_database connect close read_sql_query "fastfood.db"
     (create_database read_csv connect to_sql close "fastfood.csv" "fastfood.db" w).2).1.1 =
    Returns (Some data) ->
  classify (Some data) = Returns (Some d2) ->
  exists ranked,
    (rank_restaurants_by_carbs quicksort (Some data)).1 = Returns ranked /\
    (main read_csv connect to_sql close read_sql_query bar_chart to_csv quicksort w).2 =
      (to_csv d2 "food_cats.csv"
         (plot_top_restaurants_chart bar_chart ranked
            (read_data_from_database connect close read_sql_query "fastfood.db"
               (create_database read_csv connect to_sql close "fastfood.csv" "fastfood.db" w).2).2).2).2.
Proof.
  intros Hread Hclassify.
  destruct (create_database_stage "fastfood.csv" "fastfood.db" w) as (r1 & H1 & _).
  destruct (read_data_from_database_stage "fastfood.db"
              (create_database read_csv connect to_sql close "fastfood.csv" "fastfood.db" w).2)
    as (v & r2 & H2 & _).
  rewrite H2 in Hread. cbn [fst] in Hread. injection Hread as ->.
  destruct (calculate_calorie_stats_stage (Some data)) as (calorie_stats & r3 & H3 & _).
  destruct (rank_restaurants_by_carbs_stage quicksort (Some data)) as (ranked & r4 & H4 & _).
  destruct (plot_top_restaurants_chart_stage ranked
              (read_data_from_database connect close read_sql_query "fastfood.db"
                 (create_database read_csv connect to_sql close "fastfood.csv" "fastfood.db" w).2).2)
    as (r5 & H5 & _).
  destruct (classify_stages (Some data) d2 Hclassify) as (d1 & H6 & H7).
  destruct (export_categorized_data_to_csv_stage (Some d2) "food_cats.csv"
              (plot_top_restaurants_chart bar_chart ranked
                 (read_data_from_database connect close read_sql_query "fastfood.db"
                    (create_database read_csv connect to_sql close "fastfood.csv" "fastfood.db" w).2).2).2)
    as (r8 & H8 & _).
  exists ranked. split; [now rewrite H4|].
  rewrite (main_run quicksort w _ _ _ _ _ _ _ _ _ _ _ _ _ _ _ _ H1 H2 H3 H4 H5 H6 H7 H8).
  cbn [snd]. now rewrite export_categorized_data_to_csv_frame.
Qed.

(** X16. With a file system, a data base and a plot window that work, and a
    table of records with a string for every item, all eight stages
    succeed: the log of [main] is their eight INFO records. *)
Theorem main_succeeds (quicksort : list (value * Q) -> list (value * Q)) (w : World)
    (data : DataFrame) (calories carbs : list (string * Q)) :
  (forall f w, exists d, (read_csv f w).1 = ret d) ->
  (forall f w, exists c, (connect f w).1 = ret c) ->
  (forall d t c w, (to_sql d t c w).1 = ret tt) ->
  (forall c w, (close c w).1 = ret tt) ->
  (forall q c w, (read_sql_query q c w).1 = ret data) ->
  (forall x h w, (bar_chart x h w).1 = ret tt) ->
  (forall d f w, (to_csv d f w).1 = ret tt) ->
  records "calories" data calories ->
  records "total_carb" data carbs ->
  rows data <> [] ->
  Forall (fun r : row => exists name, r !! "item" = Some (Str name)) (rows data) ->
  (main read_csv connect to_sql close read_sql_query bar_chart to_csv quicksort w).1 =
    (Returns None,
     [(INFO, "Database created successfully.");
      (INFO, "Data read from database successfully.");
      (INFO, "Calorie statistics calculated successfully.");
      (INFO, "Restaurants ranked by carbs on average successfully.");
      (INFO, "Chart plotted successfully.");
      (INFO, "Food items categorized successfully.");
      (INFO, "Subcategories added for main food items.");
      (INFO, "Categorized data exported to CSV successfully.")]).
Proof.
  intros Hcsv Hconn Hsql Hclose Hquery Hbar Hto Hcal Hcarb Hrows Hitems.
  assert (H1 : (create_database read_csv connect to_sql close "fastfood.csv" "fastfood.db" w).1 =
               (Returns None, [(INFO, "Database created successfully.")])).
  { unfold create_database, try_except_io, io_bind.
    destruct (Hcsv "fastfood.csv" w) as [d Hd].
    destruct (read_csv "fastfood.csv" w) as [r w1]. cbn [fst] in Hd. subst r. unfold ret.
    destruct (Hconn "fastfood.db" w1) as [c Hc].
    destruct (connect "fastfood.db" w1) as [r w2]. cbn [fst] in Hc. subst r. unfold ret.
    pose proof (Hsql d "fastfood" c w2) as Hs.
    destruct (to_sql d "fastfood" c w2) as [r w3]. cbn [fst] in Hs. subst r. unfold ret.
    pose proof (Hclose c w3) as Hx.
    destruct (close c w3) as [r w4]. cbn [fst] in Hx. subst r. reflexivity. }
  assert (H2 : forall w1,
            (read_data_from_database connect close read_sql_query "fastfood.db" w1).1 =
            (Returns (Some data), [(INFO, "Data read from database successfully.")])).
  { intros w1. unfold read_data_from_database, try_except_io, io_bind, io_ret.
    destruct (Hconn "fastfood.db" w1) as [c Hc].
    destruct (connect "fastfood.db" w1) as [r w2]. cbn [fst] in Hc. subst r. unfold ret.
    pose proof (Hquery "SELECT * FROM fastfood" c w2) as Hq.
    destruct (read_sql_query "SELECT * FROM fastfood" c w2) as [r w3]. cbn [fst] in Hq.
    subst r. unfold ret.
    pose proof (Hclose c w3) as Hx.
    destruct (close c w3) as [r w4]. cbn [fst] in Hx. subst r. reflexivity. }
  destruct (groupby_spec calories) as (names & Hgroups & _).
  pose proof (calculate_calorie_stats_records data calories names Hcal Hgroups) as H3.
  destruct (rank_restaurants_by_carbs_returns quicksort data carbs Hcarb) as [ranked H4].
  assert (Hshape : columns ranked = ["restaurant"; "total_carb"]).
  { destruct (ranked_restaurants_head quicksort (Some data) ranked) as [means ->];
      [now rewrite H4 | reflexivity]. }
  assert (H5 : forall w2,
            (plot_top_restaurants_chart bar_chart (Some ranked) w2).1 =
            (Returns None, [(INFO, "Chart plotted successfully.")])).
  { intros w2. rewrite (plot_top_restaurants_chart_frame ranked w2 Hshape).
    cbn [fst]. now rewrite Hbar. }
  assert (Hcols : columns data <> []).
  { destruct Hcal as [Hin _]. intros E. rewrite E in Hin. now apply not_elem_of_nil in Hin. }
  destruct (classify_returns data Hrows Hcols Hitems) as (d2 & Hd2).
  destruct (classify_stages (Some data) d2 Hd2) as (d1 & H6 & H7).
  assert (H8 : forall w3,
            (export_categorized_data_to_csv to_csv (Some d2) "food_cats.csv" w3).1 =
            (Returns None, [(INFO, "Categorized data exported to CSV successfully.")])).
  { intros w3. rewrite export_categorized_data_to_csv_frame. cbn [fst]. now rewrite Hto. }
  rewrite (main_run quicksort w _ _ _ _ _ _ _ _ _ _ _ _ _ _ _ _
             H1 (H2 _) H3 H4 (H5 _) H6 H7 (H8 _)).
  reflexivity.
Qed.

End MainProperties.

(** ** The stages on a recorded outside *)

Lemma create_database_leaves_connection_open_witness :
  create_database ok_read_csv ok_connect bad_to_sql ok_close "fastfood.csv" "fastfood.db" [] =
    ((Returns None, [(ERROR, "Error creating database: " ++ str (OSError "database is locked"))]),
     ["read_csv"; "connect"; "to_sql"]).
Proof.
  apply (create_database_leaves_connection_open ok_read_csv ok_connect bad_to_sql ok_close
           "fastfood.csv" "fastfood.db" [] ["read_csv"] ["read_csv"; "connect"]
           ["read_csv"; "connect"; "to_sql"] menu "fastfood.db"
           (OSError "database is locked")); reflexivity.
Defined.

Lemma read_data_from_database_needs_close_witness :
  read_data_from_database ok_connect bad_close ok_read_sql_query "fastfood.db" [] =
    (match (bad_close "fastfood.db" ["connect"; "read_sql_query"]).1 with
     | inr _ => (Returns (Some menu), [(INFO, "Data read from database successfully.")])
     | inl e => (Returns None, [(ERROR, "Error reading data from database: " ++ str e)])
     end, (bad_close "fastfood.db" ["connect"; "read_sql_query"]).2).
Proof.
  apply (read_data_from_database_needs_close ok_connect bad_close ok_read_sql_query
           "fastfood.db" [] ["connect"] ["connect"; "read_sql_query"] "fastfood.db" menu);
    reflexivity.
Defined.

Lemma plot_shows_ranking_witness :
  exists x height,
    x = map (fun r : row => default NaN (r !! "restaurant")) (rows six_ranking) /\
    height = map (fun r : row => default NaN (r !! "total_carb")) (rows six_ranking) /\
    length x <= 5 /\
    plot_top_restaurants_chart ok_bar_chart (Some six_ranking) [] =
      (no_return (try_except (ok_bar_chart x height []).1
                             "Chart plotted successfully." "Error plotting chart: "),
       (ok_bar_chart x height []).2).
Proof.
  apply (plot_shows_ranking ok_bar_chart stable_sort (Some six_restaurants)).
  rewrite (six_restaurants_ranking stable_sort stable_sort_Sorts). reflexivity.
Defined.

Lemma main_without_data_witness :
  exists r1 e,
    stage_record "Database created successfully." "Error creating database: " r1 /\
    main ok_read_csv bad_connect ok_to_sql ok_close ok_read_sql_query ok_bar_chart ok_to_csv
         stable_sort [] =
      ((Returns None,
        [r1;
         (ERROR, "Error reading data from database: " ++ str e);
         (ERROR, "Error calculating calorie statistics: 'NoneType' object has no attribute 'groupby'");
         (ERROR, "Error ranking restaurants by carbs: 'NoneType' object has no attribute 'groupby'");
         (ERROR, "Error plotting chart: 'NoneType' object is not subscriptable");
         (ERROR, "Error categorizing food items: 'NoneType' object has no attribute 'apply'");
         (ERROR, "Error adding subcategories: 'NoneType' object has no attribute 'apply'");
         (ERROR, "Error exporting categorized data to CSV: 'NoneType' object has no attribute 'to_csv'")]),
       (read_data_from_database bad_connect ok_close ok_read_sql_query "fastfood.db"
          (create_database ok_read_csv bad_connect ok_to_sql ok_close
             "fastfood.csv" "fastfood.db" []).2).2).
Proof.
  apply (main_without_data ok_read_csv bad_connect ok_to_sql ok_close ok_read_sql_query
           ok_bar_chart ok_to_csv stable_sort []).
  reflexivity.
Defined.

Lemma main_exports_classified_data_witness :
  exists ranked,
    (rank_restaurants_by_carbs stable_sort (Some menu)).1 = Returns ranked /\
    (main ok_read_csv ok_connect ok_to_sql ok_close ok_read_sql_query ok_bar_chart ok_to_csv
          stable_sort []).2 =
      (ok_to_csv menu_classified "food_cats.csv"
         (plot_top_restaurants_chart ok_bar_chart ranked
            (read_data_from_database ok_connect ok_close ok_read_sql_query "fastfood.db"
               (create_database ok_read_csv ok_connect ok_to_sql ok_close
                  "fastfood.csv" "fastfood.db" []).2).2).2).2.
Proof.
  apply (main_exports_classified_data ok_read_csv ok_connect ok_to_sql ok_close
           ok_read_sql_query ok_bar_chart ok_to_csv stable_sort [] menu menu_classified).
  - reflexivity.
  - exact classify_menu.
Defined.

Lemma main_succeeds_witness :
  (main ok_read_csv ok_connect ok_to_sql ok_close ok_read_sql_query ok_bar_chart ok_to_csv
        stable_sort []).1 =
    (Returns None,
     [(INFO, "Database created successfully.");
      (INFO, "Data read from database successfully.");
      (INFO, "Calorie statistics calculated successfully.");
      (INFO, "Restaurants ranked by carbs on average successfully.");
      (INFO, "Chart plotted successfully.");
      (INFO, "Food items categorized successfully.");
      (INFO, "Subcategories added for main food items.");
      (INFO, "Categorized data exported to CSV successfully.")]).
Proof.
  apply (main_succeeds ok_read_csv ok_connect ok_to_sql ok_close ok_read_sql_query
           ok_bar_chart ok_to_csv stable_sort [] menu
           [("Mcdonalds", 400%Q); ("Burger King", 700%Q); ("Subway", 50%Q); ("Arbys", 300%Q)]
           [("Mcdonalds", 40%Q); ("Burger King", 50%Q); ("Subway", 10%Q); ("Arbys", 30%Q)]).
  - intros f w. eexists. reflexivity.
  - intros f w. eexists. reflexivity.
  - reflexivity.
  - reflexivity.
  - reflexivity.
  - reflexivity.
  - reflexivity.
  - split; [|split].
    + apply list_elem_of_In. simpl. auto.
    + apply list_elem_of_In. simpl. auto 10.
    + repeat constructor.
  - split; [|split].
    + apply list_elem_of_In. simpl. auto.
    + apply list_elem_of_In. simpl. auto 10.
    + repeat constructor.
  - discriminate.
  - repeat constructor; eexists; reflexivity.
Defined.
